(** * ds-rpc-01: role-gated retrieval pipeline

    A shallow embedding of the Python sources

      - [src/rbac_config.py]   the role to documents table,
      - [src/rag_pipeline.py]  context formatting, role filter, chain, [query_rag],
      - [src/ingest_data.py]   the offline index build,
      - [src/api/main.py]      the [/chat/query] endpoint,

    followed by the properties of the specification that concern them.

    Conventions of the embedding.
      - A Python [dict] is a [gmap] with [string] keys; a value that Python
        leaves untyped (a metadata value, a value of the result dictionary)
        is a small tagged union.
      - Code that may raise, or that talks to a collaborator (the vector
        store, the embedding model, the chat model, the file system), lives
        in the monad [io]: a computation yields either a value or the raised
        exception, together with the list of external calls it made, in
        order.  The collaborators themselves are fields of a [world] record:
        every theorem quantifies over them.
      - Console output ([print], [logger.*]) is not modelled. *)

From stdpp Require Import base option list gmap strings pretty sorting.

(** ** Python values, exceptions and effects *)

Module Py.

(** The classes of exception the sources raise or tell apart. *)
Inductive exn_class :=
| NameError
| TypeError
| FileNotFoundError
| ValidationError
| OtherException.

(** An exception with the text [str(e)] gives for it. *)
Record exn := Exn { exn_cls : exn_class; exn_str : string }.

Inductive result (A : Type) :=
| Ok (a : A)
| Raise (e : exn).
Arguments Ok {A} a.
Arguments Raise {A} e.

Global Instance result_mret : MRet result := @Ok.
Global Instance result_mbind : MBind result := λ A B k m,
  match m with
  | Ok a => k a
  | Raise e => Raise e
  end.

(** The line feed and the double quote, as one-character strings. *)
Definition nl : string := String (Ascii.ascii_of_nat 10) EmptyString.
Definition dq : string := String (Ascii.ascii_of_nat 34) EmptyString.

(** A value stored in a document's metadata: a [str] or an [int]. *)
Inductive meta_val :=
| MStr (s : string)
| MInt (z : Z).

(** A value of the dictionary [query_rag] returns. *)
Inductive pyval :=
| PStr (s : string)
| PList (l : list meta_val).

(** [langchain_core.documents.Document]: text and a metadata dict. *)
Record Document := mkDocument {
  page_content : string;
  metadata : gmap string meta_val
}.

(** The two projections of a metadata value. *)
Definition as_str (v : meta_val) : option string :=
  match v with
  | MStr s => Some s
  | MInt _ => None
  end.

Definition as_int (v : meta_val) : option Z :=
  match v with
  | MInt z => Some z
  | MStr _ => None
  end.

(** [str(v)], as an f-string renders a value. *)
Definition py_str (v : meta_val) : string :=
  match v with
  | MStr s => s
  | MInt z => pretty z
  end.

(** Truth value of an optional string ([None] and the empty string are falsy). *)
Definition truthy (o : option string) : bool :=
  match o with
  | None | Some "" => false
  | Some _ => true
  end.

(** [sep.join(parts)] *)
Fixpoint join (sep : string) (parts : list string) : string :=
  match parts with
  | [] => ""
  | [p] => p
  | p :: rest => p +:+ sep +:+ join sep rest
  end.

(** [s.endswith(suffix)] *)
Fixpoint endswith (s suffix : string) : bool :=
  if String.eqb s suffix then true
  else match s with
       | "" => false
       | String _ s' => endswith s' suffix
       end.

(** [sub in s] on strings *)
Fixpoint contains (s sub : string) : bool :=
  if String.prefix sub s then true
  else match s with
       | "" => false
       | String _ s' => contains s' sub
       end.

(** [posixpath.join(a, b)] *)
Definition path_join (a b : string) : string :=
  if String.prefix "/" b then b
  else if String.eqb a "" || endswith a "/" then a +:+ b
  else a +:+ "/" +:+ b.

(** The external calls a run can make, in the order they are made. *)
Inductive event :=
| EvEmbeddings (model_name : string)
| EvLoadIndex (path : string)
| EvNewChatModel (model_name : string)
| EvSearch (question : string) (k : nat)
| EvGenerate (prompt : string)
| EvLoadFile (path : string)
| EvSplit (docs : list Document)
| EvBuildIndex (chunks : list Document)
| EvMakedirs (dir : string)
| EvSaveIndex (path : string).

(** A computation: its outcome and the calls it made. *)
Definition io (A : Type) : Type := result A * list event.

Definition io_ret {A} (a : A) : io A := (Ok a, []).

Definition io_bind {A B} (k : A → io B) (m : io A) : io B :=
  match m with
  | (Ok a, t) => let '(r, t') := k a in (r, t ++ t')
  | (Raise e, t) => (Raise e, t)
  end.

Global Instance io_mret : MRet io := @io_ret.
Global Instance io_mbind : MBind io := @io_bind.

(** [raise e] *)
Definition raise {A} (e : exn) : io A := (Raise e, []).

(** A pure computation that may raise. *)
Definition lift {A} (r : result A) : io A := (r, []).

(** An external call: it is recorded, and yields what the collaborator
    answers (a value or an exception). *)
Definition call {A} (ev : event) (r : result A) : io A := (r, [ev]).

(** [try: body  except Exception as e: handler(e)] *)
Definition try_except {A} (body : io A) (handler : exn → io A) : io A :=
  match body with
  | (Ok a, t) => (Ok a, t)
  | (Raise e, t) => let '(r, t') := handler e in (r, t ++ t')
  end.

Definition outcome {A} (m : io A) : result A := m.1.
Definition trace {A} (m : io A) : list event := m.2.

Global Instance meta_val_eq_dec : EqDecision meta_val.
Proof. solve_decision. Defined.

Global Instance Document_eq_dec : EqDecision Document.
Proof. solve_decision. Defined.

Global Instance event_eq_dec : EqDecision event.
Proof. solve_decision. Defined.

Global Instance meta_val_countable : Countable meta_val :=
  inj_countable'
    (λ v, match v with MStr s => inl s | MInt z => inr z end)
    (λ x, match x with inl s => MStr s | inr z => MInt z end)
    (λ v, match v with MStr _ => eq_refl | MInt _ => eq_refl end).

End Py.

Import Py.

(** ** src/rbac_config.py *)

Module rbac_config.

Definition BASE_PATH : string := "resources/data".

Definition ENGINEERING_FILES : list string :=
  [ path_join BASE_PATH "engineering/engineering_master_doc.md" ].

Definition FINANCE_FILES : list string :=
  [ path_join BASE_PATH "finance/financial_summary.md";
    path_join BASE_PATH "finance/quarterly_financial_report.md" ].

Definition GENERAL_FILES : list string :=
  [ path_join BASE_PATH "general/employee_handbook.md" ].

Definition HR_FILES : list string :=
  [ path_join BASE_PATH "hr/hr_data.csv" ].

Definition MARKETING_FILES : list string :=
  [ path_join BASE_PATH "marketing/market_report_q4_2024.md";
    path_join BASE_PATH "marketing/marketing_report_2024.md";
    path_join BASE_PATH "marketing/marketing_report_q1_2024.md";
    path_join BASE_PATH "marketing/marketing_report_q2_2024.md";
    path_join BASE_PATH "marketing/marketing_report_q3_2024.md" ].

Definition ALL_FILES : list string :=
  ENGINEERING_FILES ++ FINANCE_FILES ++ GENERAL_FILES ++ HR_FILES ++ MARKETING_FILES.

(** The dict literal, entry by entry. *)
Definition ROLE_PERMISSIONS_items : list (string * list string) :=
  [ ("finance_team",
       FINANCE_FILES ++
       [ path_join BASE_PATH "marketing/marketing_report_2024.md";
         path_join BASE_PATH "general/employee_handbook.md" ]);
    ("marketing_team", MARKETING_FILES);
    ("hr_team", HR_FILES ++ GENERAL_FILES);
    ("engineering_department", ENGINEERING_FILES);
    ("c_level_executives", ALL_FILES);
    ("employee_level", GENERAL_FILES) ].

Definition ROLE_PERMISSIONS : gmap string (list string) :=
  list_to_map ROLE_PERMISSIONS_items.

(** [ROLE_PERMISSIONS.get(role, [])] *)
Definition get_allowed_documents (role : string) : list string :=
  default [] (ROLE_PERMISSIONS !! role).

End rbac_config.

Import rbac_config.

(** ** src/rag_pipeline.py *)

Module rag_pipeline.

Definition VECTOR_STORE_PATH : string := "vector_store/faiss_index".
Definition EMBEDDING_MODEL_NAME : string := "sentence-transformers/all-MiniLM-L6-v2".
Definition LLM_MODEL_NAME : string := "gpt-3.5-turbo".

(** [source += suffix] where [suffix] is a [str]: defined on a [str] only. *)
Definition py_iadd (source : meta_val) (suffix : string) : result meta_val :=
  match source with
  | MStr s => Ok (MStr (s +:+ suffix))
  | MInt _ =>
      Raise (Exn TypeError "unsupported operand type(s) for +=: 'int' and 'str'")
  end.

(** The body of the [for] loop of [format_docs_for_context]: the block of
    one document. *)
Definition format_doc (doc : Document) : result string :=
  let source := default (MStr "Unknown Source") (metadata doc !! "source") in
  source ← match metadata doc !! "row" with
           | Some row => py_iadd source (" (Row: " +:+ py_str row +:+ ")")
           | None => Ok source
           end;
  let content := page_content doc in
  Ok ("Source: " +:+ py_str source +:+ nl +:+ content).

(** The loop itself: [formatted_docs.append(...)] for each document. *)
Fixpoint format_loop (docs : list Document) (formatted_docs : list string)
  : result (list string) :=
  match docs with
  | [] => Ok formatted_docs
  | doc :: rest =>
      block ← format_doc doc;
      format_loop rest (formatted_docs ++ [block])
  end.

Definition format_docs_for_context (docs : list Document) : result string :=
  match docs with
  | [] => Ok "No documents found or provided for context."
  | _ =>
      formatted_docs ← format_loop docs [];
      Ok (join (nl +:+ nl) formatted_docs)
  end.

(** The collaborators of a query. *)
Record vector_store := {
  similarity_search : string → nat → result (list Document)
}.

Record chat_model := {
  invoke : string → result string
}.

Record world := {
  getenv : string → option string;
  path_exists : string → bool;
  HuggingFaceEmbeddings : string → result unit;
  FAISS_load_local : string → result vector_store;
  ChatOpenAI : string → string → option string → result chat_model
}.

(** [vector_store.as_retriever(search_kwargs={"k": k})], used through
    [get_relevant_documents]. *)
Definition as_retriever (vs : vector_store) (k : nat) (question : string)
  : io (list Document) :=
  call (EvSearch question k) (similarity_search vs question k).

(** The prompt template, around its two placeholders. *)
Definition template_head : string :=
  nl +:+
  "You are an AI assistant for FinSolve Technologies. Your role is to provide information based ONLY on the provided company documents." +:+ nl +:+
  "Answer the user's question based strictly on the context given." +:+ nl +:+
  "If the information is not found in the provided context, you MUST state that the information is not available in the documents you have access to." +:+ nl +:+
  "Do not make up information or use external knowledge." +:+ nl +:+
  "After your answer, list all unique source document(s) you used to answer the question. Each source should be on a new line and start with " +:+ dq +:+ "Source: " +:+ dq +:+ "." +:+ nl +:+
  nl +:+
  "Context:" +:+ nl.

Definition template_mid : string := nl +:+ nl +:+ "Question: ".

Definition template_tail : string := nl +:+ nl +:+ "Answer:" +:+ nl.

(** [prompt.format(context=..., question=...)] *)
Definition prompt_format (context question : string) : string :=
  template_head +:+ context +:+ template_mid +:+ question +:+ template_tail.

(** The dictionaries that flow through the chain. *)
Record chain_input := {
  question : string;
  role : string
}.

Record retrieved := {
  filtered_docs : list Document;
  original_input : chain_input
}.

Record prompt_input := {
  x_context : string;
  x_question : string;
  x_sources : list meta_val
}.

(** [v in allowed_sources] for [v = doc.metadata.get('source')]: a list of
    strings holds neither [None] nor an [int]. *)
Definition py_in (v : option meta_val) (allowed_sources : list string) : bool :=
  match v with
  | Some (MStr s) => bool_decide (s ∈ allowed_sources)
  | Some (MInt _) => false
  | None => false
  end.

Definition _get_filtered_docs (retriever : string → io (list Document))
    (input_dict : chain_input) : io (list Document) :=
  let allowed_sources := get_allowed_documents (role input_dict) in
  match allowed_sources with
  | [] => mret []
  | _ =>
      retrieved_docs ← retriever (question input_dict);
      let filtered_docs :=
        List.filter (λ doc, py_in (metadata doc !! "source") allowed_sources)
                    retrieved_docs in
      mret filtered_docs
  end.

(** [sorted(values)]: strings by code point, integers by value; Python
    cannot order a [str] against an [int] and raises as soon as the list
    holds both.  (The text of that [TypeError] names the two types in the
    order the sort met them, which follows the iteration order of the set;
    one of the two texts stands for both here, and no property below reads
    it.) *)
Definition py_sorted (values : list meta_val) : result (list meta_val) :=
  let strs := omap as_str values in
  let ints := omap as_int values in
  match strs, ints with
  | _, [] => Ok (MStr <$> merge_sort String.le strs)
  | [], _ => Ok (MInt <$> merge_sort Z.le ints)
  | _, _ =>
      Raise (Exn TypeError "'<' not supported between instances of 'int' and 'str'")
  end.

(** [sorted(list(set(doc.metadata['source'] for doc in docs
                     if 'source' in doc.metadata)))] *)
Definition unique_sources (docs : list Document) : result (list meta_val) :=
  let found := omap (λ doc, metadata doc !! "source") docs in
  let as_set : gset meta_val := list_to_set found in
  py_sorted (elements as_set).

(** A dictionary with the two keys every return of [query_rag] has. *)
Definition response (answer : string) (sources : list meta_val)
  : gmap string pyval :=
  {[ "answer" := PStr answer; "sources" := PList sources ]}.

Definition output_parser : Type := string → result string.

(** The chain, given the three objects it closes over. *)
Definition lcel_chain (retriever : string → io (list Document))
    (llm : chat_model) (parser : output_parser) (input_dict : chain_input)
  : io (gmap string pyval) :=
  x ← (docs ← _get_filtered_docs retriever input_dict;
       mret {| filtered_docs := docs; original_input := input_dict |});
  x ← (context ← lift (format_docs_for_context (filtered_docs x));
       sources ← lift (unique_sources (filtered_docs x));
       mret {| x_context := context;
               x_question := question (original_input x);
               x_sources := sources |});
  answer ← (let text := prompt_format (x_context x) (x_question x) in
            message ← call (EvGenerate text) (invoke llm text);
            lift (parser message));
  mret (response answer (x_sources x)).

(** The output parsers bound at module level: line 10 imports
    [StrOutputParser], which returns the text of the model's message, and
    no other name of that kind is bound anywhere in the file. *)
Definition module_output_parsers : gmap string output_parser :=
  {[ "StrOutputParser" := (λ message, Ok message) ]}.

(** Evaluating a name that should denote an output parser. *)
Definition lookup_parser (name : string) : result output_parser :=
  match module_output_parsers !! name with
  | Some parser => Ok parser
  | None => Raise (Exn NameError ("name '" +:+ name +:+ "' is not defined"))
  end.

(** The [try] block that ends [query_rag]. *)
Definition invoke_chain (chain : chain_input → io (gmap string pyval))
    (input_dict : chain_input) : io (gmap string pyval) :=
  try_except (chain input_dict)
    (λ e, mret (response
                  ("An error occurred while processing your request: " +:+ exn_str e)
                  [])).

Definition query_rag (w : world) (user_query user_role : string)
  : io (gmap string pyval) :=
  let openai_api_key := getenv w "OPENAI_API_KEY" in
  let openai_api_base := getenv w "OPENAI_API_BASE" in
  if negb (truthy openai_api_key) then
    mret (response
            "Error: OPENAI_API_KEY environment variable not set. Cannot query the LLM."
            [])
  else if negb (path_exists w VECTOR_STORE_PATH) then
    mret (response
            ("Error: Vector store not found at " +:+ VECTOR_STORE_PATH +:+
             ". Please run the ingestion script first.")
            [])
  else
    loaded ← try_except
               (embeddings ← call (EvEmbeddings EMBEDDING_MODEL_NAME)
                                  (HuggingFaceEmbeddings w EMBEDDING_MODEL_NAME);
                vector_store ← call (EvLoadIndex VECTOR_STORE_PATH)
                                    (FAISS_load_local w VECTOR_STORE_PATH);
                mret (inl vector_store))
               (λ e, mret (inr (response
                                  ("Error loading vector store or embeddings: "
                                   +:+ exn_str e)
                                  [])));
    match loaded with
    | inr failure => mret failure
    | inl vector_store =>
        let retriever := as_retriever vector_store 10 in
        llm ← call (EvNewChatModel LLM_MODEL_NAME)
                   (ChatOpenAI w LLM_MODEL_NAME (default "" openai_api_key)
                               openai_api_base);
        (* line 157 evaluates the name StringOutputParser *)
        parser ← lift (lookup_parser "StringOutputParser");
        invoke_chain (lcel_chain retriever llm parser)
                     {| question := user_query; role := user_role |}
    end.

End rag_pipeline.

Import rag_pipeline.

(** ** src/ingest_data.py *)

Module ingest_data.

(** The collaborators of the ingestion job. *)
Record world := {
  path_exists : string → bool;
  CSVLoader_load : string → result (list Document);
  TextLoader_load : string → result (list Document);
  split_documents : list Document → result (list Document);
  HuggingFaceEmbeddings : string → result unit;
  FAISS_from_documents : list Document → result unit;
  makedirs : string → result unit;
  save_local : string → result unit
}.

Definition is_slash (c : Ascii.ascii) : bool := bool_decide (c = Ascii.ascii_of_nat 47).

(** [p[:p.rfind('/') + 1]] *)
Fixpoint dir_head (p : string) : string :=
  match p with
  | EmptyString => ""
  | String c p' =>
      let h := dir_head p' in
      if negb (String.eqb h "") || is_slash c then String c h else ""
  end.

(** [s.rstrip('/')] *)
Fixpoint rstrip_slash (s : string) : string :=
  match s with
  | EmptyString => ""
  | String c s' =>
      let r := rstrip_slash s' in
      if String.eqb r "" && is_slash c then "" else String c r
  end.

(** [posixpath.dirname(p)] *)
Definition dirname (p : string) : string :=
  let head := dir_head p in
  if String.eqb (rstrip_slash head) "" then head else rstrip_slash head.

(** [doc.metadata['source'] = file_path] *)
Definition set_source (file_path : string) (doc : Document) : Document :=
  mkDocument (page_content doc) (<["source" := MStr file_path]> (metadata doc)).

(** What one file contributes to [all_docs_content]: the body of the
    [try] in the loop over [ALL_FILES].  [Document.page_content] is a
    [str], so of the [isinstance] tests on it only the second applies. *)
Definition load_file (w : world) (file_path : string) : io (list Document) :=
  if negb (path_exists w file_path) then mret []
  else if endswith file_path ".csv" then
    if contains file_path "hr_data.csv" then
      raw_documents ← call (EvLoadFile file_path) (CSVLoader_load w file_path);
      let processed_csv_docs :=
        imap (λ i doc,
                mkDocument (page_content doc)
                           {[ "source" := MStr file_path;
                              "row" := MInt (Z.of_nat i + 1) ]})
             raw_documents in
      mret processed_csv_docs
    else
      documents ← call (EvLoadFile file_path) (CSVLoader_load w file_path);
      mret (set_source file_path <$> documents)
  else if endswith file_path ".md" then
    documents ← call (EvLoadFile file_path) (TextLoader_load w file_path);
    mret (set_source file_path <$> documents)
  else mret [].

(** The loop over the files: an exception while loading one file skips it. *)
Fixpoint load_all (w : world) (files : list string)
    (all_docs_content : list Document) : io (list Document) :=
  match files with
  | [] => mret all_docs_content
  | file_path :: rest =>
      docs ← try_except (load_file w file_path) (λ _, mret []);
      load_all w rest (all_docs_content ++ docs)
  end.

Definition VECTOR_STORE_PATH : string := "vector_store/faiss_index".
Definition EMBEDDING_MODEL_NAME : string := "sentence-transformers/all-MiniLM-L6-v2".

Definition ingest_data (w : world) : io unit :=
  all_docs_content ← load_all w ALL_FILES [];
  match all_docs_content with
  | [] => mret tt
  | _ =>
      chunks ← call (EvSplit all_docs_content) (split_documents w all_docs_content);
      embeddings ← call (EvEmbeddings EMBEDDING_MODEL_NAME)
                        (HuggingFaceEmbeddings w EMBEDDING_MODEL_NAME);
      vector_store ← call (EvBuildIndex chunks) (FAISS_from_documents w chunks);
      let store_dir := dirname VECTOR_STORE_PATH in
      _ ← (if negb (path_exists w store_dir)
           then call (EvMakedirs store_dir) (makedirs w store_dir)
           else mret tt);
      call (EvSaveIndex VECTOR_STORE_PATH) (save_local w VECTOR_STORE_PATH)
  end.

End ingest_data.

(** ** src/api/main.py

    The endpoint, with [query_rag] imported from [src.rag_pipeline] (the
    fallback definitions for a failed import are not modelled). *)

Module api_main.

Record ChatQueryRequest := {
  query : string;
  role : string;
  session_id : option string
}.

Record ChatQueryResponse := {
  answer : string;
  sources : list string;
  error : option string
}.

(** What the endpoint hands to the framework: a response body, or an
    [HTTPException] (which the framework renders as an error response
    with that status and a [detail] field). *)
Inductive reply :=
| Returned (body : ChatQueryResponse)
| HTTPException (status_code : nat) (detail : pyval).

(** Truth value of [result.get("error")]. *)
Definition truthy_val (v : option pyval) : bool :=
  match v with
  | None | Some (PStr "") | Some (PList []) => false
  | Some _ => true
  end.

(** Validation of the two fields that [ChatQueryResponse(...)] is given,
    [answer: str] and [sources: List[str]]; a value of another type is
    refused.  Every dictionary [query_rag] returns holds a [str] and a list
    of [str] there (see [query_rag_outcomes]), so the refusal is never
    exercised. *)
Definition validate_answer (v : pyval) : result string :=
  match v with
  | PStr s => Ok s
  | PList _ => Raise (Exn ValidationError "answer: str type expected")
  end.

Definition validate_sources (v : pyval) : result (list string) :=
  match v with
  | PList l =>
      if forallb (λ x, bool_decide (is_Some (as_str x))) l
      then Ok (omap as_str l)
      else Raise (Exn ValidationError "sources: str type expected")
  | PStr _ => Raise (Exn ValidationError "sources: value is not a valid list")
  end.

(** What the body of the [try] can raise. *)
Inductive raised :=
| RaisedHTTP (status_code : nat) (detail : pyval)
| RaisedOther (e : exn).

(** The statements of the [try] block after the call of [query_rag]. *)
Definition build_response (result : gmap string pyval)
  : ChatQueryResponse + raised :=
  if truthy_val (result !! "error") then
    inr (RaisedHTTP 500 (default (PStr "") (result !! "error")))
  else
    let answer := default (PStr "No answer found.") (result !! "answer") in
    let sources := default (PList []) (result !! "sources") in
    match validate_answer answer, validate_sources sources with
    | Ok a, Ok l => inl {| answer := a; sources := l; error := None |}
    | Raise e, _ => inr (RaisedOther e)
    | _, Raise e => inr (RaisedOther e)
    end.

(** The three [except] clauses. *)
Definition handle_raised (r : raised) : reply :=
  match r with
  | RaisedHTTP status_code detail => HTTPException status_code detail
  | RaisedOther (Exn FileNotFoundError msg) =>
      HTTPException 500
        (PStr ("Server error: A required file was not found: " +:+ msg))
  | RaisedOther _ =>
      HTTPException 500
        (PStr "An unexpected internal error occurred. Please check server logs.")
  end.

Definition handle_chat_query (w : rag_pipeline.world) (request : ChatQueryRequest)
  : reply * list event :=
  if negb (truthy (getenv w "OPENAI_API_KEY")) then
    (HTTPException 500 (PStr "Server configuration error: OPENAI_API_KEY not set."), [])
  else if negb (rag_pipeline.path_exists w rag_pipeline.VECTOR_STORE_PATH) then
    (HTTPException 500
       (PStr ("Server error: Vector store not found at "
              +:+ rag_pipeline.VECTOR_STORE_PATH +:+ ". Please run ingestion.")), [])
  else
    match query_rag w (query request) (role request) with
    | (Ok result, t) =>
        match build_response result with
        | inl body => (Returned body, t)
        | inr r => (handle_raised r, t)
        end
    | (Raise e, t) => (handle_raised (RaisedOther e), t)
    end.

End api_main.

(** ** The composer, as the specification words it

    Section 4.4 of the specification describes the context string and
    section 3 the chunk it is built from; these definitions follow that
    text and are compared with the code further down. *)

Module composer_spec.

(** A chunk: text, the document it comes from, an optional position. *)
Record Chunk := {
  text : string;
  source : string;
  position : option meta_val
}.

(** The chunk a document of the index stands for. *)
Definition chunk_of (doc : Document) : option Chunk :=
  match metadata doc !! "source" with
  | Some (MStr s) =>
      Some {| text := page_content doc;
              source := s;
              position := metadata doc !! "row" |}
  | _ => None
  end.

(** Source identifier, plus the row when the chunk has one. *)
Definition attribution_header (c : Chunk) : string :=
  "Source: " +:+ source c +:+
  match position c with
  | Some row => " (Row: " +:+ py_str row +:+ ")"
  | None => ""
  end.

(** The header, followed by the text of the chunk. *)
Definition block (c : Chunk) : string :=
  attribution_header c +:+ nl +:+ text c.

Definition blank_line : string := nl +:+ nl.

Definition no_evidence : string := "No documents found or provided for context.".

Definition context (chunks : list Chunk) : string :=
  match chunks with
  | [] => no_evidence
  | _ => join blank_line (block <$> chunks)
  end.

End composer_spec.

(** ** Sample data

    Documents, collaborators and worlds on which the definitions above are
    evaluated. *)

Module samples.

Definition hr_row : Document :=
  mkDocument "name: Ann, dept: HR"
    {[ "source" := MStr "resources/data/hr/hr_data.csv"; "row" := MInt 3 ]}.

Definition finance_summary : Document :=
  mkDocument "Q4 profit rose"
    {[ "source" := MStr "resources/data/finance/financial_summary.md" ]}.

Definition handbook : Document :=
  mkDocument "Leave policy: 20 days"
    {[ "source" := MStr "resources/data/general/employee_handbook.md" ]}.

Definition orphan : Document := mkDocument "no provenance" ∅.

(** A store that ranks a finance chunk first and returns a chunk twice. *)
Definition store : vector_store :=
  {| similarity_search := λ _ _,
       Ok [finance_summary; hr_row; orphan; handbook; hr_row] |}.

Definition model : chat_model :=
  {| invoke := λ _, Ok "Source: resources/data/finance/financial_summary.md" |}.

Definition hr_query : chain_input :=
  {| question := "How many leave days?"; rag_pipeline.role := "hr_team" |}.

Definition stranger_query : chain_input :=
  {| question := "How many leave days?"; rag_pipeline.role := "night_watch" |}.

Definition env_with_key (name : string) : option string :=
  if String.eqb name "OPENAI_API_KEY" then Some "sk-test" else None.

Definition ready : rag_pipeline.world :=
  {| getenv := env_with_key;
     rag_pipeline.path_exists := λ _, true;
     rag_pipeline.HuggingFaceEmbeddings := λ _, Ok ();
     FAISS_load_local := λ _, Ok store;
     ChatOpenAI := λ _ _ _, Ok model |}.

Definition no_key : rag_pipeline.world :=
  {| getenv := λ _, None;
     rag_pipeline.path_exists := λ _, true;
     rag_pipeline.HuggingFaceEmbeddings := λ _, Ok ();
     FAISS_load_local := λ _, Ok store;
     ChatOpenAI := λ _ _ _, Ok model |}.

Definition no_index : rag_pipeline.world :=
  {| getenv := env_with_key;
     rag_pipeline.path_exists := λ _, false;
     rag_pipeline.HuggingFaceEmbeddings := λ _, Ok ();
     FAISS_load_local := λ _, Ok store;
     ChatOpenAI := λ _ _ _, Ok model |}.

Definition broken_index : rag_pipeline.world :=
  {| getenv := env_with_key;
     rag_pipeline.path_exists := λ _, true;
     rag_pipeline.HuggingFaceEmbeddings := λ _, Ok ();
     FAISS_load_local := λ _, Raise (Exn OtherException "could not read index.faiss");
     ChatOpenAI := λ _ _ _, Ok model |}.

Definition request : api_main.ChatQueryRequest :=
  {| api_main.query := "How many leave days?";
     api_main.role := "hr_team";
     api_main.session_id := None |}.

(** An ingestion run in a directory that holds none of the files. *)
Definition empty_disk : ingest_data.world :=
  {| ingest_data.path_exists := λ _, false;
     ingest_data.CSVLoader_load := λ _, Ok [];
     ingest_data.TextLoader_load := λ _, Ok [];
     ingest_data.split_documents := λ docs, Ok docs;
     ingest_data.HuggingFaceEmbeddings := λ _, Ok ();
     ingest_data.FAISS_from_documents := λ _, Ok ();
     ingest_data.makedirs := λ _, Ok ();
     ingest_data.save_local := λ _, Ok () |}.

End samples.

(** Further collaborators and disks, for the properties of the second
    part. *)

Module more_samples.

Definition failing_store : vector_store :=
  {| similarity_search := λ _ _, Raise (Exn OtherException "index corrupted") |}.

Definition failing_model : chat_model :=
  {| invoke := λ _, Raise (Exn OtherException "rate limit") |}.

Definition bad_model_world : rag_pipeline.world :=
  {| getenv := samples.env_with_key;
     rag_pipeline.path_exists := λ _, true;
     rag_pipeline.HuggingFaceEmbeddings := λ _, Ok ();
     FAISS_load_local := λ _, Ok samples.store;
     ChatOpenAI := λ _ _ _, Raise (Exn ValidationError "invalid api base") |}.

(** A chunk whose source is a number, with a row. *)
Definition numbered : Document :=
  mkDocument "stray" {[ "source" := MInt 7; "row" := MInt 1 ]}.

Definition hr_path : string := "resources/data/hr/hr_data.csv".
Definition handbook_path : string := "resources/data/general/employee_handbook.md".

(** What [CSVLoader] gives for a file of two rows: its own metadata has a
    row counted from zero. *)
Definition raw_rows : list Document :=
  [ mkDocument "name: Ann" {[ "source" := MStr hr_path; "row" := MInt 0 ]};
    mkDocument "name: Bob" {[ "source" := MStr hr_path; "row" := MInt 1 ]} ].

(** A disk with the HR table and the handbook only. *)
Definition small_disk : ingest_data.world :=
  {| ingest_data.path_exists := λ p,
       String.eqb p hr_path || String.eqb p handbook_path;
     ingest_data.CSVLoader_load := λ _, Ok raw_rows;
     ingest_data.TextLoader_load := λ _, Ok [mkDocument "Leave policy: 20 days" ∅];
     ingest_data.split_documents := λ docs, Ok docs;
     ingest_data.HuggingFaceEmbeddings := λ _, Ok ();
     ingest_data.FAISS_from_documents := λ _, Ok ();
     ingest_data.makedirs := λ _, Ok ();
     ingest_data.save_local := λ _, Ok () |}.

(** The same disk, with an embedding provider that cannot be reached. *)
Definition offline_disk : ingest_data.world :=
  {| ingest_data.path_exists := λ p,
       String.eqb p hr_path || String.eqb p handbook_path;
     ingest_data.CSVLoader_load := λ _, Ok raw_rows;
     ingest_data.TextLoader_load := λ _, Ok [mkDocument "Leave policy: 20 days" ∅];
     ingest_data.split_documents := λ docs, Ok docs;
     ingest_data.HuggingFaceEmbeddings := λ _, Ok ();
     ingest_data.FAISS_from_documents := λ _,
       Raise (Exn OtherException "embedding provider unreachable");
     ingest_data.makedirs := λ _, Ok ();
     ingest_data.save_local := λ _, Ok () |}.

End more_samples.

(** A document that [format_doc] cannot render: its source is a number
    and it has a row, so [source += ...] adds a [str] to an [int]. *)
Definition unrenderable (doc : Document) : Prop :=
  ∃ z, metadata doc !! "source" = Some (MInt z) ∧ is_Some (metadata doc !! "row").

(** The block of one document in the context, in closed form: the source
    as [str] renders it, the fixed text for a missing source, the row when
    there is one, then the text. *)
Definition rendered_block (doc : Document) : string :=
  "Source: "
  +:+ match metadata doc !! "source" with
      | Some v => py_str v
      | None => "Unknown Source"
      end
  +:+ match metadata doc !! "row" with
      | Some row => " (Row: " +:+ py_str row +:+ ")"
      | None => ""
      end
  +:+ nl +:+ page_content doc.

(** A file of a kind the loop of [ingest_data] has a loader for. *)
Definition supported (file_path : string) : bool :=
  endswith file_path ".csv" || endswith file_path ".md".

Example path_join_base :
  path_join BASE_PATH "hr/hr_data.csv" = "resources/data/hr/hr_data.csv".
Proof. reflexivity. Qed.

Example pretty_row : py_str (MInt 12) = "12" ∧ py_str (MInt (-5)) = "-5".
Proof. split; reflexivity. Qed.

Example allowed_hr :
  get_allowed_documents "hr_team"
  = ["resources/data/hr/hr_data.csv"; "resources/data/general/employee_handbook.md"].
Proof. vm_compute. reflexivity. Qed.

(** * Properties *)

(** Closed decidable facts are settled by evaluation. *)
Ltac by_compute := apply (bool_decide_unpack _); vm_compute; exact I.

(** ** The document catalog *)

Section catalog.

Lemma ROLE_PERMISSIONS_keys_NoDup : NoDup ROLE_PERMISSIONS_items.*1.
Proof. by_compute. Qed.

Lemma ROLE_PERMISSIONS_lookup role docs :
  ROLE_PERMISSIONS !! role = Some docs ↔ (role, docs) ∈ ROLE_PERMISSIONS_items.
Proof.
  unfold ROLE_PERMISSIONS. symmetry.
  apply elem_of_list_to_map, ROLE_PERMISSIONS_keys_NoDup.
Qed.

Lemma ROLE_PERMISSIONS_unknown role :
  ROLE_PERMISSIONS !! role = None ↔ role ∉ ROLE_PERMISSIONS_items.*1.
Proof. unfold ROLE_PERMISSIONS. symmetry. apply not_elem_of_list_to_map. Qed.

Lemma list_subseteq_Forall (l1 l2 : list string) :
  Forall (λ x, x ∈ l2) l1 → l1 ⊆ l2.
Proof. intros H x Hx. revert x Hx. by apply Forall_forall. Qed.

Lemma allowed_within_all role docs :
  (role, docs) ∈ ROLE_PERMISSIONS_items → docs ⊆ ALL_FILES.
Proof.
  unfold ROLE_PERMISSIONS_items. rewrite !elem_of_cons, elem_of_nil.
  intros H. destruct_or!; try done; simplify_eq;
    (apply list_subseteq_Forall; by_compute).
Qed.

Lemma get_allowed_documents_listed role docs :
  (role, docs) ∈ ROLE_PERMISSIONS_items → get_allowed_documents role = docs.
Proof.
  intros Hin. apply ROLE_PERMISSIONS_lookup in Hin.
  unfold get_allowed_documents. by rewrite Hin.
Qed.

Lemma get_allowed_documents_unlisted role :
  role ∉ ROLE_PERMISSIONS_items.*1 → get_allowed_documents role = [].
Proof.
  intros Hnot. apply ROLE_PERMISSIONS_unknown in Hnot.
  unfold get_allowed_documents. by rewrite Hnot.
Qed.

End catalog.

(** C5. [get_allowed_documents] is a total function of the role: a role
    that the table lists gets the list the table gives it, every other role
    string gets the empty list. *)
Theorem C5_get_allowed_documents_total (role : string) :
  (∀ docs, (role, docs) ∈ ROLE_PERMISSIONS_items → get_allowed_documents role = docs)
  ∧ (role ∉ ROLE_PERMISSIONS_items.*1 → get_allowed_documents role = []).
Proof.
  split.
  - apply get_allowed_documents_listed.
  - apply get_allowed_documents_unlisted.
Qed.

Lemma C5_witness :
  get_allowed_documents "hr_team"
    = ["resources/data/hr/hr_data.csv"; "resources/data/general/employee_handbook.md"]
  ∧ get_allowed_documents "unknown_role" = [].
Proof.
  split.
  - apply (proj1 (C5_get_allowed_documents_total "hr_team")).
    by_compute.
  - apply (proj2 (C5_get_allowed_documents_total "unknown_role")).
    by_compute.
Defined.

(** C6. The documents of "employee_level" are a strict subset of those of
    "c_level_executives", and the documents of every role are among those
    of "c_level_executives". *)
Theorem C6_executives_see_everything :
  get_allowed_documents "employee_level" ⊆ get_allowed_documents "c_level_executives"
  ∧ ¬ (get_allowed_documents "c_level_executives" ⊆ get_allowed_documents "employee_level")
  ∧ ∀ role, get_allowed_documents role ⊆ get_allowed_documents "c_level_executives".
Proof.
  assert (Hall : get_allowed_documents "c_level_executives" = ALL_FILES)
    by (vm_compute; reflexivity).
  assert (Hsub : ∀ role, get_allowed_documents role ⊆ ALL_FILES).
  { intros role. unfold get_allowed_documents.
    destruct (ROLE_PERMISSIONS !! role) as [docs|] eqn:E; simpl.
    - apply ROLE_PERMISSIONS_lookup in E. by eapply allowed_within_all.
    - apply list_subseteq_nil. }
  rewrite Hall. split_and!; [apply Hsub | | apply Hsub].
  intros Hrev.
  assert (Hout : "resources/data/hr/hr_data.csv" ∉ get_allowed_documents "employee_level")
    by by_compute.
  apply Hout, Hrev. by_compute.
Qed.

(** ** The role filter *)

Section role_filter.

Variable retriever : string → io (list Document).
Variable input_dict : chain_input.

(** [_get_filtered_docs], with the monad unfolded. *)
Lemma get_filtered_docs_eq :
  _get_filtered_docs retriever input_dict =
  match get_allowed_documents (role input_dict) with
  | [] => (Ok [], [])
  | allowed_sources =>
      match retriever (question input_dict) with
      | (Ok retrieved_docs, t) =>
          (Ok (List.filter
                 (λ doc, py_in (metadata doc !! "source") allowed_sources)
                 retrieved_docs), t)
      | (Raise e, t) => (Raise e, t)
      end
  end.
Proof.
  unfold _get_filtered_docs.
  destruct (get_allowed_documents (role input_dict)) as [|a l]; [done|].
  unfold mbind, io_mbind, io_bind.
  destruct (retriever (question input_dict)) as [[r|e] t]; simpl; [|done].
  by rewrite app_nil_r.
Qed.

(** The search decides which chunks come back and in which order; the
    filter keeps a chunk exactly when its source is an allowed string. *)
Lemma get_filtered_docs_elem docs t doc :
  _get_filtered_docs retriever input_dict = (Ok docs, t) →
  doc ∈ docs →
  py_in (metadata doc !! "source") (get_allowed_documents (role input_dict)) = true.
Proof.
  rewrite get_filtered_docs_eq.
  destruct (get_allowed_documents (role input_dict)) as [|a l] eqn:Hallowed.
  - intros [= <- <-] Hin. by apply elem_of_nil in Hin.
  - destruct (retriever (question input_dict)) as [[r|e] t0]; [|done].
    intros [= <- <-] Hin.
    apply list_elem_of_In, filter_In in Hin. tauto.
Qed.

Lemma py_in_true v allowed_sources :
  py_in v allowed_sources = true ↔ ∃ s, v = Some (MStr s) ∧ s ∈ allowed_sources.
Proof.
  destruct v as [[s|z]|]; simpl; split; try done; try (by intros (? & ? & ?)).
  - intros H. exists s. split; [done|]. by apply bool_decide_eq_true in H.
  - intros (s' & [= <-] & H). by apply bool_decide_eq_true.
Qed.

End role_filter.

(** C1. Whatever the similarity search returns and however it ranks it,
    every chunk in the list [_get_filtered_docs] returns carries a source
    that is a member of the allowed documents of the role. *)
Theorem C1_filtered_docs_authorized
    (retriever : string → io (list Document)) (input_dict : chain_input)
    (docs : list Document) (t : list event) :
  _get_filtered_docs retriever input_dict = (Ok docs, t) →
  ∀ doc, doc ∈ docs →
    ∃ s, metadata doc !! "source" = Some (MStr s)
         ∧ s ∈ get_allowed_documents (role input_dict).
Proof.
  intros Hrun doc Hin.
  apply py_in_true. by eapply get_filtered_docs_elem.
Qed.

Lemma C1_witness :
  _get_filtered_docs (as_retriever samples.store 10) samples.hr_query
    = (Ok [samples.hr_row; samples.handbook; samples.hr_row],
       [EvSearch "How many leave days?" 10])
  ∧ ∃ s, metadata samples.handbook !! "source" = Some (MStr s)
         ∧ s ∈ get_allowed_documents "hr_team".
Proof.
  split; [vm_compute; reflexivity|].
  apply (C1_filtered_docs_authorized (as_retriever samples.store 10) samples.hr_query
           [samples.hr_row; samples.handbook; samples.hr_row]
           [EvSearch "How many leave days?" 10]).
  - vm_compute; reflexivity.
  - by_compute.
Defined.

(** C2. When the role has no allowed document, which is the case of every
    role the table does not list, [_get_filtered_docs] returns the empty list
    without any call to the index; a run that calls the index is a run for a
    role with a non-empty allowed set, and then the index is queried once. *)
Theorem C2_empty_allowlist_skips_search
    (vs : vector_store) (k : nat) (input_dict : chain_input) :
  let run := _get_filtered_docs (as_retriever vs k) input_dict in
  (get_allowed_documents (role input_dict) = [] → run = (Ok [], []))
  ∧ (role input_dict ∉ ROLE_PERMISSIONS_items.*1 → run = (Ok [], []))
  ∧ (∀ ev, ev ∈ trace run → get_allowed_documents (role input_dict) ≠ [])
  ∧ (get_allowed_documents (role input_dict) ≠ [] →
     trace run = [EvSearch (question input_dict) k]).
Proof.
  intros run. unfold run. rewrite get_filtered_docs_eq.
  split_and!.
  - by intros ->.
  - intros Hnot. by rewrite (get_allowed_documents_unlisted _ Hnot).
  - destruct (get_allowed_documents (role input_dict)); [|done].
    intros ev Hin. by apply elem_of_nil in Hin.
  - destruct (get_allowed_documents (role input_dict)); [done|].
    intros _. unfold as_retriever, call.
    by destruct (similarity_search vs (question input_dict) k).
Qed.

Lemma C2_witness :
  _get_filtered_docs (as_retriever samples.store 10) samples.stranger_query = (Ok [], [])
  ∧ trace (_get_filtered_docs (as_retriever samples.store 10) samples.hr_query)
    = [EvSearch "How many leave days?" 10].
Proof.
  split.
  - apply (proj1 (C2_empty_allowlist_skips_search samples.store 10 samples.stranger_query)).
    vm_compute; reflexivity.
  - apply (proj2 (proj2 (proj2
             (C2_empty_allowlist_skips_search samples.store 10 samples.hr_query)))).
    vm_compute; discriminate.
Defined.

(** C10. A retrieved chunk whose metadata has no 'source' key fails the
    membership test for every role, and is absent from the list
    [_get_filtered_docs] returns. *)
Theorem C10_missing_source_excluded
    (retriever : string → io (list Document)) (input_dict : chain_input)
    (docs : list Document) (t : list event) (doc : Document) :
  _get_filtered_docs retriever input_dict = (Ok docs, t) →
  metadata doc !! "source" = None →
  (∀ allowed_sources, py_in (metadata doc !! "source") allowed_sources = false)
  ∧ doc ∉ docs.
Proof.
  intros Hrun Hnone. split.
  - intros allowed_sources. by rewrite Hnone.
  - intros Hin.
    pose proof (get_filtered_docs_elem _ _ _ _ _ Hrun Hin) as Hkept.
    rewrite Hnone in Hkept. discriminate.
Qed.

Lemma C10_witness :
  (∀ allowed_sources,
      py_in (metadata samples.orphan !! "source") allowed_sources = false)
  ∧ samples.orphan ∉ [samples.hr_row; samples.handbook; samples.hr_row].
Proof.
  apply (C10_missing_source_excluded (as_retriever samples.store 10) samples.hr_query
           _ [EvSearch "How many leave days?" 10]).
  - vm_compute; reflexivity.
  - vm_compute; reflexivity.
Defined.

(** ** The context string *)

Section context.

Import composer_spec.

Lemma string_app_cons a s1 s2 : String a s1 +:+ s2 = String a (s1 +:+ s2).
Proof. reflexivity. Qed.

Lemma string_app_assoc s1 s2 s3 : (s1 +:+ s2) +:+ s3 = s1 +:+ s2 +:+ s3.
Proof.
  induction s1 as [|a s1 IH]; [done|].
  by rewrite !string_app_cons, IH.
Qed.

Lemma string_app_nil_r s : s +:+ "" = s.
Proof.
  induction s as [|a s IH]; [done|]. by rewrite string_app_cons, IH.
Qed.

(** One turn of the loop produces the block of the chunk. *)
Lemma format_doc_block doc c :
  chunk_of doc = Some c → format_doc doc = Ok (block c).
Proof.
  unfold chunk_of, format_doc, block, attribution_header.
  destruct (metadata doc !! "source") as [[s|z]|]; try done.
  intros [= <-]; simpl.
  destruct (metadata doc !! "row") as [row|]; simpl.
  - by rewrite !string_app_assoc.
  - by rewrite string_app_nil_r, !string_app_assoc.
Qed.

(** The loop appends the blocks, in order, to what it has collected. *)
Lemma format_loop_blocks docs chunks formatted_docs :
  Forall2 (λ doc c, chunk_of doc = Some c) docs chunks →
  format_loop docs formatted_docs = Ok (formatted_docs ++ (block <$> chunks)).
Proof.
  intros H. revert formatted_docs.
  induction H as [|doc c docs chunks Hc _ IH]; intros formatted_docs; simpl.
  - by rewrite app_nil_r.
  - rewrite (format_doc_block _ _ Hc); simpl.
    rewrite IH. by rewrite <- app_assoc.
Qed.

Lemma format_docs_for_context_chunks docs chunks :
  Forall2 (λ doc c, chunk_of doc = Some c) docs chunks →
  format_docs_for_context docs = Ok (context chunks).
Proof.
  intros H. destruct H as [|doc c docs chunks Hc Hrest]; [done|].
  unfold format_docs_for_context, context.
  by rewrite (format_loop_blocks (doc :: docs) (c :: chunks) []); [|constructor].
Qed.

End context.

(** C9. For a non-empty list of chunks the context is the blocks of the
    chunks, in order and separated by blank lines, a block being the
    attribution header (source, with the row when the metadata has one)
    followed by the text; for the empty list it is the fixed sentence. *)
Theorem C9_context_of_chunks (docs : list Document) (chunks : list composer_spec.Chunk) :
  mapM composer_spec.chunk_of docs = Some chunks →
  format_docs_for_context docs = Ok (composer_spec.context chunks).
Proof.
  intros H. by apply format_docs_for_context_chunks, mapM_Some.
Qed.

Lemma C9_witness :
  format_docs_for_context [samples.hr_row; samples.handbook]
    = Ok ("Source: resources/data/hr/hr_data.csv (Row: 3)" +:+ nl +:+
          "name: Ann, dept: HR" +:+ nl +:+ nl +:+
          "Source: resources/data/general/employee_handbook.md" +:+ nl +:+
          "Leave policy: 20 days")
  ∧ format_docs_for_context [] = Ok "No documents found or provided for context.".
Proof.
  split.
  - apply (C9_context_of_chunks [samples.hr_row; samples.handbook]
             [ {| composer_spec.text := "name: Ann, dept: HR";
                  composer_spec.source := "resources/data/hr/hr_data.csv";
                  composer_spec.position := Some (MInt 3) |};
               {| composer_spec.text := "Leave policy: 20 days";
                  composer_spec.source := "resources/data/general/employee_handbook.md";
                  composer_spec.position := None |} ]).
    vm_compute; reflexivity.
  - apply (C9_context_of_chunks [] []). reflexivity.
Defined.

(** ** The reported sources *)

Section sources.

Lemma omap_as_int_strings (l : list meta_val) :
  (∀ v, v ∈ l → ∃ s, v = MStr s) → omap as_int l = [].
Proof.
  induction l as [|v l IH]; [done|]. intros Hall.
  destruct (Hall v) as [s ->]; [left|]. simpl.
  apply IH. intros v' Hv'. apply Hall. by right.
Qed.

Lemma elem_of_omap_as_str (l : list meta_val) s :
  s ∈ omap as_str l ↔ MStr s ∈ l.
Proof.
  rewrite list_elem_of_omap. split.
  - intros ([s'|z] & Hin & Heq); simplify_eq/=. done.
  - intros Hin. by exists (MStr s).
Qed.

Lemma NoDup_omap_as_str (l : list meta_val) :
  NoDup l → NoDup (omap as_str l).
Proof.
  induction 1 as [|v l Hnot _ IH]; [constructor|].
  destruct v as [s|z]; simpl; [|done].
  constructor; [|done]. by rewrite elem_of_omap_as_str.
Qed.

(** The sorted list of a list of strings only. *)
Lemma py_sorted_strings (l : list meta_val) :
  (∀ v, v ∈ l → ∃ s, v = MStr s) →
  py_sorted l = Ok (MStr <$> merge_sort String.le (omap as_str l)).
Proof.
  intros Hall. unfold py_sorted.
  rewrite (omap_as_int_strings l Hall). by destruct (omap as_str l).
Qed.

(** What [unique_sources] computes from chunks whose sources are strings:
    the sources that occur, each once, in lexicographic order. *)
Lemma unique_sources_sorted_set (docs : list Document) :
  (∀ doc v, doc ∈ docs → metadata doc !! "source" = Some v → ∃ s, v = MStr s) →
  ∃ srcs,
    unique_sources docs = Ok (MStr <$> srcs)
    ∧ Sorted String.le srcs
    ∧ NoDup srcs
    ∧ ∀ s, s ∈ srcs ↔ ∃ doc, doc ∈ docs ∧ metadata doc !! "source" = Some (MStr s).
Proof.
  intros Hstr. unfold unique_sources.
  set (found := omap (λ doc, metadata doc !! "source") docs).
  set (els := elements (list_to_set found : gset meta_val)).
  assert (Hels : ∀ v, v ∈ els ↔ ∃ doc, doc ∈ docs ∧ metadata doc !! "source" = Some v).
  { intros v. unfold els, found.
    by rewrite elem_of_elements, elem_of_list_to_set, list_elem_of_omap. }
  exists (merge_sort String.le (omap as_str els)). split_and!.
  - apply py_sorted_strings. intros v Hv.
    apply Hels in Hv as (doc & Hdoc & Hv). by eapply Hstr.
  - apply (Sorted_merge_sort _).
  - rewrite (merge_sort_Permutation _). apply NoDup_omap_as_str, NoDup_elements.
  - intros s. by rewrite (merge_sort_Permutation _), elem_of_omap_as_str, Hels.
Qed.

Lemma response_answer answer sources :
  response answer sources !! "answer" = Some (PStr answer).
Proof. done. Qed.

Lemma response_sources answer sources :
  response answer sources !! "sources" = Some (PList sources).
Proof. done. Qed.

Lemma response_error answer sources :
  response answer sources !! "error" = None.
Proof. done. Qed.

Variable retriever : string → io (list Document).
Variable llm : chat_model.
Variable parser : output_parser.
Variable input_dict : chain_input.

(** A run of the chain that returns, stage by stage. *)
Lemma lcel_chain_returns_inv result t :
  lcel_chain retriever llm parser input_dict = (Ok result, t) →
  ∃ docs t0 context sources message answer,
    _get_filtered_docs retriever input_dict = (Ok docs, t0)
    ∧ format_docs_for_context docs = Ok context
    ∧ unique_sources docs = Ok sources
    ∧ invoke llm (prompt_format context (question input_dict)) = Ok message
    ∧ parser message = Ok answer
    ∧ result = response answer sources
    ∧ t = t0 ++ [EvGenerate (prompt_format context (question input_dict))].
Proof.
  unfold lcel_chain, mbind, io_mbind, io_bind, mret, io_mret, io_ret, lift, call.
  destruct (_get_filtered_docs retriever input_dict) as [[docs|e] t0]; [|done].
  simpl.
  destruct (format_docs_for_context docs) as [context|e] eqn:Hctx; [|done]. simpl.
  destruct (unique_sources docs) as [sources|e] eqn:Hsrc; [|done]. simpl.
  destruct (invoke llm (prompt_format context (question input_dict)))
    as [message|e] eqn:Hllm; [|done]. simpl.
  destruct (parser message) as [answer|e] eqn:Hparse; [|done]. simpl.
  intros [= <- <-].
  exists docs, t0, context, sources, message, answer.
  split_and!; try done. by rewrite app_nil_r.
Qed.

(** The sources present in filtered chunks are strings. *)
Lemma filtered_sources_are_strings docs t0 :
  _get_filtered_docs retriever input_dict = (Ok docs, t0) →
  ∀ doc v, doc ∈ docs → metadata doc !! "source" = Some v → ∃ s, v = MStr s.
Proof.
  intros Hrun doc v Hin Hv.
  pose proof (get_filtered_docs_elem _ _ _ _ _ Hrun Hin) as Hkept.
  apply py_in_true in Hkept as (s & Hs & _). exists s. congruence.
Qed.

End sources.

(** C3. The [sources] of a result of the chain are the sources of the
    filtered chunks, each once and in lexicographic order; they are the same
    whatever the chat model and the output parser return, and all of them
    are allowed documents of the role. *)
Theorem C3_sources_from_filtered_chunks
    (retriever : string → io (list Document)) (llm : chat_model)
    (parser : output_parser) (input_dict : chain_input)
    (result : gmap string pyval) (t : list event) :
  lcel_chain retriever llm parser input_dict = (Ok result, t) →
  ∃ docs t0 srcs,
    _get_filtered_docs retriever input_dict = (Ok docs, t0)
    ∧ result !! "sources" = Some (PList (MStr <$> srcs))
    ∧ Sorted String.le srcs
    ∧ NoDup srcs
    ∧ (∀ s, s ∈ srcs ↔ ∃ doc, doc ∈ docs ∧ metadata doc !! "source" = Some (MStr s))
    ∧ srcs ⊆ get_allowed_documents (role input_dict)
    ∧ (∀ llm' parser' result' t',
         lcel_chain retriever llm' parser' input_dict = (Ok result', t') →
         result' !! "sources" = result !! "sources").
Proof.
  intros Hrun.
  apply lcel_chain_returns_inv in Hrun
    as (docs & t0 & context & sources & message & answer
        & Hdocs & _ & Hsources & _ & _ & -> & _).
  pose proof (filtered_sources_are_strings _ _ _ _ Hdocs) as Hstr.
  destruct (unique_sources_sorted_set docs Hstr) as (srcs & Heq & Hsorted & Hnodup & Hmem).
  rewrite Hsources in Heq. injection Heq as ->.
  exists docs, t0, srcs. split_and!; try done.
  - intros s Hs. apply Hmem in Hs as (doc & Hin & Hsrc).
    pose proof (get_filtered_docs_elem _ _ _ _ _ Hdocs Hin) as Hkept.
    apply py_in_true in Hkept as (s' & Hs' & Hallowed). congruence.
  - intros llm' parser' result' t' Hrun'.
    apply lcel_chain_returns_inv in Hrun'
      as (docs' & t0' & context' & sources' & message' & answer'
          & Hdocs' & _ & Hsources' & _ & _ & -> & _).
    rewrite Hdocs in Hdocs'. injection Hdocs' as <- <-.
    rewrite Hsources in Hsources'. injection Hsources' as <-.
    by rewrite !response_sources.
Qed.

Lemma C3_witness :
  ∃ docs t0 srcs,
    _get_filtered_docs (as_retriever samples.store 10) samples.hr_query = (Ok docs, t0)
    ∧ response "Source: resources/data/finance/financial_summary.md"
               [MStr "resources/data/general/employee_handbook.md";
                MStr "resources/data/hr/hr_data.csv"] !! "sources"
      = Some (PList (MStr <$> srcs))
    ∧ Sorted String.le srcs
    ∧ NoDup srcs
    ∧ (∀ s, s ∈ srcs ↔ ∃ doc, doc ∈ docs ∧ metadata doc !! "source" = Some (MStr s))
    ∧ srcs ⊆ get_allowed_documents "hr_team"
    ∧ (∀ llm' parser' result' t',
         lcel_chain (as_retriever samples.store 10) llm' parser' samples.hr_query
           = (Ok result', t') →
         result' !! "sources"
         = response "Source: resources/data/finance/financial_summary.md"
                    [MStr "resources/data/general/employee_handbook.md";
                     MStr "resources/data/hr/hr_data.csv"] !! "sources").
Proof.
  apply (C3_sources_from_filtered_chunks (as_retriever samples.store 10) samples.model
           (λ message, Ok message) samples.hr_query _
           (trace (lcel_chain (as_retriever samples.store 10) samples.model
                     (λ message, Ok message) samples.hr_query))).
  vm_compute; reflexivity.
Defined.

(** ** [query_rag] and the endpoint *)

Section query.

Variable w : rag_pipeline.world.
Variables user_query user_role : string.

Let key_set := truthy (getenv w "OPENAI_API_KEY").
Let index_present := rag_pipeline.path_exists w rag_pipeline.VECTOR_STORE_PATH.
Let embeddings :=
  rag_pipeline.HuggingFaceEmbeddings w rag_pipeline.EMBEDDING_MODEL_NAME.
Let loaded := FAISS_load_local w rag_pipeline.VECTOR_STORE_PATH.

Lemma query_rag_no_key :
  key_set = false →
  query_rag w user_query user_role
  = (Ok (response
           "Error: OPENAI_API_KEY environment variable not set. Cannot query the LLM."
           []), []).
Proof. unfold key_set, query_rag. by intros ->. Qed.

Lemma query_rag_no_index :
  key_set = true → index_present = false →
  query_rag w user_query user_role
  = (Ok (response
           ("Error: Vector store not found at " +:+ rag_pipeline.VECTOR_STORE_PATH
            +:+ ". Please run the ingestion script first.")
           []), []).
Proof. unfold key_set, index_present, query_rag. by intros -> ->. Qed.

Lemma query_rag_embeddings_fail e :
  key_set = true → index_present = true → embeddings = Raise e →
  query_rag w user_query user_role
  = (Ok (response ("Error loading vector store or embeddings: " +:+ exn_str e) []),
     [EvEmbeddings rag_pipeline.EMBEDDING_MODEL_NAME]).
Proof.
  unfold key_set, index_present, embeddings, query_rag. by intros -> -> ->.
Qed.

Lemma query_rag_load_fails u e :
  key_set = true → index_present = true → embeddings = Ok u → loaded = Raise e →
  query_rag w user_query user_role
  = (Ok (response ("Error loading vector store or embeddings: " +:+ exn_str e) []),
     [EvEmbeddings rag_pipeline.EMBEDDING_MODEL_NAME;
      EvLoadIndex rag_pipeline.VECTOR_STORE_PATH]).
Proof.
  unfold key_set, index_present, embeddings, loaded, query_rag.
  by intros -> -> -> ->.
Qed.

(** The name that line 157 evaluates is bound nowhere. *)
Lemma lookup_parser_undefined :
  lookup_parser "StringOutputParser"
  = Raise (Exn NameError "name 'StringOutputParser' is not defined").
Proof. reflexivity. Qed.

(** Once the index is loaded, building the chain raises: no run of
    [query_rag] gets as far as invoking it. *)
Lemma query_rag_loaded_raises u vs :
  key_set = true → index_present = true → embeddings = Ok u → loaded = Ok vs →
  ∃ e, outcome (query_rag w user_query user_role) = Raise e
       ∧ trace (query_rag w user_query user_role)
         = [EvEmbeddings rag_pipeline.EMBEDDING_MODEL_NAME;
            EvLoadIndex rag_pipeline.VECTOR_STORE_PATH;
            EvNewChatModel LLM_MODEL_NAME].
Proof.
  unfold key_set, index_present, embeddings, loaded, query_rag.
  intros -> -> -> ->. simpl.
  unfold mbind, io_mbind, io_bind, call.
  destruct (ChatOpenAI w _ _ _) as [llm|e]; simpl; eauto.
Qed.

(** Every failure before the chain is reported in a dictionary. *)
Lemma query_rag_early_failure :
  key_set = false ∨ index_present = false
  ∨ (∃ e, embeddings = Raise e) ∨ (∃ e, loaded = Raise e) →
  ∃ msg, outcome (query_rag w user_query user_role) = Ok (response msg []).
Proof.
  intros Hfail.
  destruct key_set eqn:Hkey; [|by rewrite query_rag_no_key; eauto].
  destruct index_present eqn:Hidx; [|by rewrite query_rag_no_index; eauto].
  destruct embeddings as [u|e] eqn:Hemb;
    [|by rewrite (query_rag_embeddings_fail e); eauto].
  destruct loaded as [vs|e] eqn:Hload;
    [|by rewrite (query_rag_load_fails u e); eauto].
  destruct Hfail as [?|[?|[[? ?]|[? ?]]]]; done.
Qed.

(** The [try] block turns an exception of the chain into a dictionary. *)
Lemma invoke_chain_raise chain input_dict e t :
  chain input_dict = (Raise e, t) →
  invoke_chain chain input_dict
  = (Ok (response
           ("An error occurred while processing your request: " +:+ exn_str e) []),
     t).
Proof.
  unfold invoke_chain, try_except. intros ->. simpl. by rewrite app_nil_r.
Qed.

Variable request : api_main.ChatQueryRequest.

Lemma handle_chat_query_no_key :
  key_set = false →
  api_main.handle_chat_query w request
  = (api_main.HTTPException 500
       (PStr "Server configuration error: OPENAI_API_KEY not set."), []).
Proof. unfold key_set, api_main.handle_chat_query. by intros ->. Qed.

Lemma handle_chat_query_no_index :
  key_set = true → index_present = false →
  api_main.handle_chat_query w request
  = (api_main.HTTPException 500
       (PStr ("Server error: Vector store not found at "
              +:+ rag_pipeline.VECTOR_STORE_PATH +:+ ". Please run ingestion.")), []).
Proof. unfold key_set, index_present, api_main.handle_chat_query. by intros -> ->. Qed.

End query.

(** The runs of [query_rag], case by case. *)

Section as_written.

Variable w : rag_pipeline.world.
Variables user_query user_role : string.

(** The five ways a run of [query_rag] can go. *)
Lemma query_rag_cases :
  let run := query_rag w user_query user_role in
  (truthy (getenv w "OPENAI_API_KEY") = false ∧ ∃ msg, run = (Ok (response msg []), []))
  ∨ (truthy (getenv w "OPENAI_API_KEY") = true
     ∧ rag_pipeline.path_exists w rag_pipeline.VECTOR_STORE_PATH = false
     ∧ ∃ msg, run = (Ok (response msg []), []))
  ∨ (truthy (getenv w "OPENAI_API_KEY") = true
     ∧ rag_pipeline.path_exists w rag_pipeline.VECTOR_STORE_PATH = true
     ∧ ∃ e t,
         (rag_pipeline.HuggingFaceEmbeddings w rag_pipeline.EMBEDDING_MODEL_NAME = Raise e
          ∨ FAISS_load_local w rag_pipeline.VECTOR_STORE_PATH = Raise e)
         ∧ t ⊆ [EvEmbeddings rag_pipeline.EMBEDDING_MODEL_NAME;
                EvLoadIndex rag_pipeline.VECTOR_STORE_PATH]
         ∧ run = (Ok (response
                        ("Error loading vector store or embeddings: " +:+ exn_str e) []),
                  t))
  ∨ (truthy (getenv w "OPENAI_API_KEY") = true
     ∧ rag_pipeline.path_exists w rag_pipeline.VECTOR_STORE_PATH = true
     ∧ ∃ e,
         run = (Raise e,
                [EvEmbeddings rag_pipeline.EMBEDDING_MODEL_NAME;
                 EvLoadIndex rag_pipeline.VECTOR_STORE_PATH;
                 EvNewChatModel LLM_MODEL_NAME])).
Proof.
  intros run. unfold run.
  destruct (truthy (getenv w "OPENAI_API_KEY")) eqn:Hkey;
    [|left; split; [done|]; eexists; by apply query_rag_no_key].
  right.
  destruct (rag_pipeline.path_exists w rag_pipeline.VECTOR_STORE_PATH) eqn:Hidx;
    [|left; split_and!; [done..|]; eexists; by apply query_rag_no_index].
  right.
  destruct (rag_pipeline.HuggingFaceEmbeddings w rag_pipeline.EMBEDDING_MODEL_NAME)
    as [u|e] eqn:Hemb.
  - destruct (FAISS_load_local w rag_pipeline.VECTOR_STORE_PATH) as [vs|e] eqn:Hload.
    + right. split_and!; [done..|].
      destruct (query_rag_loaded_raises w user_query user_role u vs Hkey Hidx Hemb Hload)
        as (e & He & Ht).
      exists e. destruct (query_rag w user_query user_role) as [r t].
      simpl in *. by subst.
    + left. split_and!; [done..|]. exists e. eexists. split_and!; [by right| |].
      2: by apply (query_rag_load_fails w user_query user_role u e).
      done.
  - left. split_and!; [done..|]. exists e. eexists. split_and!; [by left| |].
    2: by apply (query_rag_embeddings_fail w user_query user_role e).
    intros ev Hev. apply list_elem_of_singleton in Hev as ->. left.
Qed.

Lemma build_response_error_message msg :
  api_main.build_response (response msg [])
  = inl {| api_main.answer := msg; api_main.sources := []; api_main.error := None |}.
Proof. reflexivity. Qed.

Lemma handle_raised_500 (e : exn) :
  ∃ detail, api_main.handle_raised (api_main.RaisedOther e)
            = api_main.HTTPException 500 (PStr detail).
Proof. destruct e as [[] msg]; simpl; eauto. Qed.

Lemma validate_sources_strings (srcs : list string) :
  api_main.validate_sources (PList (MStr <$> srcs)) = Ok srcs.
Proof.
  unfold api_main.validate_sources.
  assert (Hall : forallb (λ x, bool_decide (is_Some (as_str x))) (MStr <$> srcs) = true).
  { apply forallb_forall. intros x Hx.
    apply list_elem_of_In, list_elem_of_fmap in Hx as (s & -> & _).
    apply bool_decide_eq_true_2. by eexists. }
  rewrite Hall. f_equal. clear Hall.
  induction srcs as [|s srcs IH]; [done|].
  change (omap as_str (MStr <$> s :: srcs)) with (s :: omap as_str (MStr <$> srcs)).
  by rewrite IH.
Qed.

End as_written.

(** C7. Without a credential [query_rag] returns the configuration-error
    dictionary at once: no chat model is built, nothing is sent to the
    provider, and no other collaborator is called either. *)
Theorem C7_missing_key_short_circuits
    (w : rag_pipeline.world) (user_query user_role : string) :
  truthy (getenv w "OPENAI_API_KEY") = false →
  query_rag w user_query user_role
  = (Ok (response
           "Error: OPENAI_API_KEY environment variable not set. Cannot query the LLM."
           []), []).
Proof. apply query_rag_no_key. Qed.

Lemma C7_witness :
  query_rag samples.no_key "How many leave days?" "hr_team"
  = (Ok (response
           "Error: OPENAI_API_KEY environment variable not set. Cannot query the LLM."
           []), []).
Proof.
  apply (C7_missing_key_short_circuits samples.no_key). reflexivity.
Defined.

(** C4, as the code has it. No fault passes the request boundary: the
    endpoint always replies, with a body whose [error] is [None] or with an
    [HTTPException] of status 500 and a text as detail, and every exception
    that leaves [query_rag] becomes such a 500. The failure itself is never
    in an [error] field. [query_rag] reports it in [answer]: without
    credential, without index or with an index that fails to load it returns
    a dictionary with the message of that path as [answer], empty [sources]
    and no [error] key, and the [try] block around the chain does the same
    with an exception of the chain. The endpoint answers a missing
    credential or a missing index with a 500 that names it, and a failed
    load with a body whose [answer] is the loading error. *)
Theorem C4_failures_reported_in_answer
    (w : rag_pipeline.world) (user_query user_role : string)
    (request : api_main.ChatQueryRequest) :
  let key := truthy (getenv w "OPENAI_API_KEY") in
  let index := rag_pipeline.path_exists w rag_pipeline.VECTOR_STORE_PATH in
  let embeddings :=
    rag_pipeline.HuggingFaceEmbeddings w rag_pipeline.EMBEDDING_MODEL_NAME in
  let loaded := FAISS_load_local w rag_pipeline.VECTOR_STORE_PATH in
  let load_fails e :=
    embeddings = Raise e ∨ ((∃ u, embeddings = Ok u) ∧ loaded = Raise e) in
  let reply := (api_main.handle_chat_query w request).1 in
  (key = false →
   query_rag w user_query user_role
   = (Ok (response
            "Error: OPENAI_API_KEY environment variable not set. Cannot query the LLM."
            []), []))
  ∧ (key = true → index = false →
     query_rag w user_query user_role
     = (Ok (response
              "Error: Vector store not found at vector_store/faiss_index. Please run the ingestion script first."
              []), []))
  ∧ (∀ e, key = true → index = true → load_fails e →
       outcome (query_rag w user_query user_role)
       = Ok (response
               ("Error loading vector store or embeddings: " +:+ exn_str e) []))
  ∧ (∀ chain input_dict e t,
       chain input_dict = (Raise e, t) →
       invoke_chain chain input_dict
       = (Ok (response
                ("An error occurred while processing your request: " +:+ exn_str e)
                []), t))
  ∧ (∀ msg, response msg [] !! "answer" = Some (PStr msg)
            ∧ response msg [] !! "sources" = Some (PList [])
            ∧ response msg [] !! "error" = None)
  ∧ (key = false →
     api_main.handle_chat_query w request
     = (api_main.HTTPException 500
          (PStr "Server configuration error: OPENAI_API_KEY not set."), []))
  ∧ (key = true → index = false →
     api_main.handle_chat_query w request
     = (api_main.HTTPException 500
          (PStr "Server error: Vector store not found at vector_store/faiss_index. Please run ingestion."),
        []))
  ∧ (∀ e, key = true → index = true → load_fails e →
       reply = api_main.Returned
                 {| api_main.answer :=
                      "Error loading vector store or embeddings: " +:+ exn_str e;
                    api_main.sources := [];
                    api_main.error := None |})
  ∧ ((∃ body, reply = api_main.Returned body ∧ api_main.error body = None)
     ∨ (∃ detail, reply = api_main.HTTPException 500 (PStr detail)))
  ∧ (∀ e, ∃ detail,
       api_main.handle_raised (api_main.RaisedOther e)
       = api_main.HTTPException 500 (PStr detail)).
Proof.
  intros key index embeddings loaded load_fails reply.
  assert (Hload : ∀ q r e, key = true → index = true → load_fails e →
            ∃ t, query_rag w q r
                 = (Ok (response
                          ("Error loading vector store or embeddings: " +:+ exn_str e)
                          []), t)).
  { intros q r e Hkey Hidx [Hemb|[[u Hemb] Hload]].
    - eexists. by apply query_rag_embeddings_fail.
    - eexists. by apply (query_rag_load_fails w q r u e). }
  split_and!.
  - apply query_rag_no_key.
  - apply query_rag_no_index.
  - intros e Hkey Hidx Hfail.
    by destruct (Hload user_query user_role e Hkey Hidx Hfail) as [t ->].
  - apply invoke_chain_raise.
  - done.
  - apply handle_chat_query_no_key.
  - apply handle_chat_query_no_index.
  - intros e Hkey Hidx Hfail. unfold reply, api_main.handle_chat_query.
    fold key index. rewrite Hkey, Hidx. simpl.
    destruct (Hload (api_main.query request) (api_main.role request) e
                Hkey Hidx Hfail) as [t ->].
    by rewrite build_response_error_message.
  - unfold reply, api_main.handle_chat_query.
    destruct (query_rag_cases w (api_main.query request) (api_main.role request))
      as [(Hkey & msg & Hrun)|[(Hkey & Hidx & msg & Hrun)
          |[(Hkey & Hidx & e & t & He & Ht & Hrun)|(Hkey & Hidx & e & Hrun)]]];
      rewrite Hkey; simpl; try rewrite Hidx; simpl.
    + right. eauto.
    + right. eauto.
    + rewrite Hrun, build_response_error_message. left. eauto.
    + rewrite Hrun. right. apply handle_raised_500.
  - apply handle_raised_500.
Qed.

Lemma C4_witness :
  query_rag samples.no_key "How many leave days?" "hr_team"
  = (Ok (response
           "Error: OPENAI_API_KEY environment variable not set. Cannot query the LLM."
           []), [])
  ∧ query_rag samples.no_index "How many leave days?" "hr_team"
    = (Ok (response
             "Error: Vector store not found at vector_store/faiss_index. Please run the ingestion script first."
             []), [])
  ∧ outcome (query_rag samples.broken_index "How many leave days?" "hr_team")
    = Ok (response
            "Error loading vector store or embeddings: could not read index.faiss" [])
  ∧ invoke_chain (λ _, raise (Exn OtherException "rate limit")) samples.hr_query
    = (Ok (response "An error occurred while processing your request: rate limit" []),
       [])
  ∧ api_main.handle_chat_query samples.no_key samples.request
    = (api_main.HTTPException 500
         (PStr "Server configuration error: OPENAI_API_KEY not set."), [])
  ∧ api_main.handle_chat_query samples.no_index samples.request
    = (api_main.HTTPException 500
         (PStr "Server error: Vector store not found at vector_store/faiss_index. Please run ingestion."),
       [])
  ∧ (api_main.handle_chat_query samples.broken_index samples.request).1
    = api_main.Returned
        {| api_main.answer :=
             "Error loading vector store or embeddings: could not read index.faiss";
           api_main.sources := [];
           api_main.error := None |}.
Proof.
  pose proof (C4_failures_reported_in_answer samples.no_key
                "How many leave days?" "hr_team" samples.request) as Hno_key.
  pose proof (C4_failures_reported_in_answer samples.no_index
                "How many leave days?" "hr_team" samples.request) as Hno_index.
  pose proof (C4_failures_reported_in_answer samples.broken_index
                "How many leave days?" "hr_team" samples.request) as Hbroken.
  cbv zeta in Hno_key, Hno_index, Hbroken.
  destruct Hno_key as (Hk1 & _ & _ & _ & _ & Hk6 & _).
  destruct Hno_index as (_ & Hi2 & _ & _ & _ & _ & Hi7 & _).
  destruct Hbroken as (_ & _ & Hb3 & Hb4 & _ & _ & _ & Hb8 & _).
  split_and!.
  - apply Hk1. reflexivity.
  - apply Hi2; reflexivity.
  - apply (Hb3 (Exn OtherException "could not read index.faiss")); [reflexivity..|].
    right. split; [by eexists|reflexivity].
  - apply (Hb4 (λ _, raise (Exn OtherException "rate limit")) samples.hr_query
             (Exn OtherException "rate limit") []).
    reflexivity.
  - apply Hk6. reflexivity.
  - apply Hi7; reflexivity.
  - apply (Hb8 (Exn OtherException "could not read index.faiss")); [reflexivity..|].
    right. split; [by eexists|reflexivity].
Defined.

(** The claim C4 reads the failure off the [error] field of the result.
    Without a credential [query_rag] returns a dictionary without that
    key, the message being its [answer], and the endpoint raises an
    [HTTPException] instead of returning a body; with an index that fails to
    load the endpoint returns a body whose [error] is [None] and whose
    [answer] is the error message. *)
Lemma C4_counterexample :
  truthy (getenv samples.no_key "OPENAI_API_KEY") = false
  ∧ (∃ result,
       outcome (query_rag samples.no_key "How many leave days?" "hr_team") = Ok result
       ∧ result !! "error" = None
       ∧ result !! "answer"
         = Some (PStr "Error: OPENAI_API_KEY environment variable not set. Cannot query the LLM."))
  ∧ api_main.handle_chat_query samples.no_key samples.request
    = (api_main.HTTPException 500
         (PStr "Server configuration error: OPENAI_API_KEY not set."), [])
  ∧ FAISS_load_local samples.broken_index rag_pipeline.VECTOR_STORE_PATH
    = Raise (Exn OtherException "could not read index.faiss")
  ∧ api_main.handle_chat_query samples.broken_index samples.request
    = (api_main.Returned
         {| api_main.answer :=
              "Error loading vector store or embeddings: could not read index.faiss";
            api_main.sources := [];
            api_main.error := None |},
       [EvEmbeddings rag_pipeline.EMBEDDING_MODEL_NAME;
        EvLoadIndex rag_pipeline.VECTOR_STORE_PATH]).
Proof.
  split_and!; try (vm_compute; reflexivity).
  eexists. split_and!; vm_compute; reflexivity.
Qed.

(** ** Ingestion *)

Section ingestion.

Import ingest_data.

Variable w : ingest_data.world.

Lemma load_file_trace file_path ev :
  ev ∈ trace (load_file w file_path) → ev = EvLoadFile file_path.
Proof.
  unfold load_file, mbind, io_mbind, io_bind, call.
  destruct (negb (path_exists w file_path)); [by intros ?%elem_of_nil|].
  destruct (endswith file_path ".csv"); [destruct (contains file_path "hr_data.csv")|];
    [ destruct (CSVLoader_load w file_path)
    | destruct (CSVLoader_load w file_path)
    | destruct (endswith file_path ".md");
      [destruct (TextLoader_load w file_path)|by intros ?%elem_of_nil] ];
    simpl; by rewrite list_elem_of_singleton.
Qed.

(** The loop never raises: a file that fails to load is skipped. *)
Lemma load_all_returns files all_docs_content :
  ∃ docs, outcome (load_all w files all_docs_content) = Ok docs.
Proof.
  revert all_docs_content.
  induction files as [|file_path files IH]; intros all_docs_content; simpl.
  - by eexists.
  - unfold mbind, io_mbind, io_bind, try_except.
    destruct (load_file w file_path) as [[docs|e] t]; simpl.
    + destruct (IH (all_docs_content ++ docs)) as [docs' Hdocs'].
      destruct (load_all w files (all_docs_content ++ docs)) as [r t'].
      simpl in *. eauto.
    + destruct (IH (all_docs_content ++ [])) as [docs' Hdocs'].
      destruct (load_all w files (all_docs_content ++ [])) as [r t'].
      simpl in *. eauto.
Qed.

(** The loop only reads the files it is given. *)
Lemma load_all_trace files all_docs_content ev :
  ev ∈ trace (load_all w files all_docs_content) →
  ∃ file_path, file_path ∈ files ∧ ev = EvLoadFile file_path.
Proof.
  revert all_docs_content.
  induction files as [|file_path files IH]; intros all_docs_content; simpl.
  - by intros ?%elem_of_nil.
  - unfold mbind, io_mbind, io_bind, try_except.
    pose proof (load_file_trace file_path ev) as Hfile.
    destruct (load_file w file_path) as [[docs|e] t]; simpl in *.
    + pose proof (IH (all_docs_content ++ docs)) as IH'.
      destruct (load_all w files (all_docs_content ++ docs)) as [r t'].
      simpl in *. rewrite elem_of_app. intros [Hin|Hin].
      * exists file_path. split; [left|auto].
      * destruct (IH' Hin) as (f & Hf & ->). exists f. split; [by right|done].
    + pose proof (IH (all_docs_content ++ [])) as IH'.
      destruct (load_all w files (all_docs_content ++ [])) as [r t'].
      simpl in *. rewrite app_nil_r, elem_of_app. intros [Hin|Hin].
      * exists file_path. split; [left|auto].
      * destruct (IH' Hin) as (f & Hf & ->). exists f. split; [by right|done].
Qed.

(** With nothing loaded, the job stops after the loop. *)
Lemma ingest_data_nothing_loaded :
  outcome (load_all w ALL_FILES []) = Ok [] →
  ingest_data w = (Ok tt, trace (load_all w ALL_FILES [])).
Proof.
  unfold ingest_data, mbind, io_mbind, io_bind.
  destruct (load_all w ALL_FILES []) as [r t]; simpl. intros ->.
  simpl. by rewrite app_nil_r.
Qed.

End ingestion.

(** C8, as the code has it. When no document was loaded, [ingest_data]
    returns normally: it raises nothing, and builds and saves no index (the
    only calls of the run are the reads of the files). *)
Theorem C8_empty_ingestion_returns (w : ingest_data.world) :
  outcome (ingest_data.load_all w ALL_FILES []) = Ok [] →
  outcome (ingest_data.ingest_data w) = Ok tt
  ∧ ∀ ev, ev ∈ trace (ingest_data.ingest_data w) →
          ∃ file_path, file_path ∈ ALL_FILES ∧ ev = EvLoadFile file_path.
Proof.
  intros Hempty. rewrite (ingest_data_nothing_loaded w Hempty). split; [done|].
  intros ev Hev. by eapply load_all_trace.
Qed.

Lemma C8_witness :
  outcome (ingest_data.ingest_data samples.empty_disk) = Ok tt
  ∧ ∀ ev, ev ∈ trace (ingest_data.ingest_data samples.empty_disk) →
          ∃ file_path, file_path ∈ ALL_FILES ∧ ev = EvLoadFile file_path.
Proof.
  apply (C8_empty_ingestion_returns samples.empty_disk). vm_compute; reflexivity.
Defined.

(** The claim C8 has the build fail on an empty document set. On a disk
    that holds none of the files nothing is loaded, and [ingest_data]
    returns without an exception and without a call. *)
Lemma C8_counterexample :
  ingest_data.load_all samples.empty_disk ALL_FILES [] = (Ok [], [])
  ∧ ingest_data.ingest_data samples.empty_disk = (Ok tt, [])
  ∧ ¬ ∃ e, outcome (ingest_data.ingest_data samples.empty_disk) = Raise e.
Proof.
  split_and!; try (vm_compute; reflexivity).
  intros [e He]. vm_compute in He. discriminate.
Qed.

(** ** What a run can return *)

Section runs.

Variable retriever : string → io (list Document).
Variable llm : chat_model.
Variable parser : output_parser.
Variable input_dict : chain_input.

Lemma filtered_docs_are_chunks docs t0 :
  _get_filtered_docs retriever input_dict = (Ok docs, t0) →
  ∃ chunks, Forall2 (λ doc c, composer_spec.chunk_of doc = Some c) docs chunks.
Proof.
  intros Hrun.
  assert (Hall : ∀ doc, doc ∈ docs → is_Some (composer_spec.chunk_of doc)).
  { intros doc Hin.
    pose proof (get_filtered_docs_elem _ _ _ _ _ Hrun Hin) as Hkept.
    apply py_in_true in Hkept as (s & Hs & _).
    unfold composer_spec.chunk_of. by rewrite Hs. }
  clear Hrun. induction docs as [|doc docs IH]; [by exists []|].
  destruct (Hall doc) as [c Hc]; [left|].
  destruct IH as [chunks Hchunks]; [intros d Hd; apply Hall; by right|].
  exists (c :: chunks). by constructor.
Qed.

(** The chain returns whenever its collaborators do: on filtered chunks
    neither the context nor the sources can fail. *)
Lemma lcel_chain_returns docs t0 :
  _get_filtered_docs retriever input_dict = (Ok docs, t0) →
  ∃ context sources,
    format_docs_for_context docs = Ok context
    ∧ unique_sources docs = Ok sources
    ∧ ∀ message answer,
        invoke llm (prompt_format context (question input_dict)) = Ok message →
        parser message = Ok answer →
        lcel_chain retriever llm parser input_dict
        = (Ok (response answer sources),
           t0 ++ [EvGenerate (prompt_format context (question input_dict))]).
Proof.
  intros Hrun.
  destruct (filtered_docs_are_chunks docs t0 Hrun) as [chunks Hchunks].
  pose proof (format_docs_for_context_chunks docs chunks Hchunks) as Hctx.
  destruct (unique_sources_sorted_set docs
              (filtered_sources_are_strings _ _ _ _ Hrun)) as (srcs & Hsrc & _).
  eexists _, _. split_and!; [done..|].
  intros message answer Hllm Hparse.
  unfold lcel_chain, mbind, io_mbind, io_bind, mret, io_mret, io_ret, lift, call.
  rewrite Hrun. simpl. rewrite Hctx, Hsrc. simpl. rewrite Hllm. simpl.
  rewrite Hparse. simpl. by rewrite !app_nil_r.
Qed.

End runs.

(** [query_rag] as written returns one of its error dictionaries or
    raises: the chain is never invoked, because building it evaluates a name
    that no import binds. *)
Lemma query_rag_outcomes (w : rag_pipeline.world) (user_query user_role : string) :
  (∃ msg, outcome (query_rag w user_query user_role) = Ok (response msg []))
  ∨ (∃ e, outcome (query_rag w user_query user_role) = Raise e).
Proof.
  destruct (truthy (getenv w "OPENAI_API_KEY")) eqn:Hkey;
    [|left; apply query_rag_early_failure; auto].
  destruct (rag_pipeline.path_exists w rag_pipeline.VECTOR_STORE_PATH) eqn:Hidx;
    [|left; apply query_rag_early_failure; auto].
  destruct (rag_pipeline.HuggingFaceEmbeddings w rag_pipeline.EMBEDDING_MODEL_NAME)
    as [u|e] eqn:Hemb; [|left; apply query_rag_early_failure; eauto].
  destruct (FAISS_load_local w rag_pipeline.VECTOR_STORE_PATH)
    as [vs|e] eqn:Hload; [|left; apply query_rag_early_failure; eauto 6].
  right.
  destruct (query_rag_loaded_raises w user_query user_role u vs Hkey Hidx Hemb Hload)
    as (e & He & _).
  eauto.
Qed.

Example query_rag_ready_raises :
  query_rag samples.ready "How many leave days?" "hr_team"
  = (Raise (Exn NameError "name 'StringOutputParser' is not defined"),
     [EvEmbeddings rag_pipeline.EMBEDDING_MODEL_NAME;
      EvLoadIndex rag_pipeline.VECTOR_STORE_PATH;
      EvNewChatModel LLM_MODEL_NAME]).
Proof. vm_compute; reflexivity. Qed.

Example handle_chat_query_ready :
  api_main.handle_chat_query samples.ready samples.request
  = (api_main.HTTPException 500
       (PStr "An unexpected internal error occurred. Please check server logs."),
     [EvEmbeddings rag_pipeline.EMBEDDING_MODEL_NAME;
      EvLoadIndex rag_pipeline.VECTOR_STORE_PATH;
      EvNewChatModel LLM_MODEL_NAME]).
Proof. vm_compute; reflexivity. Qed.

(** * Further properties of the code *)

(** ** Retrieval and the chain *)

Section retrieval.

Lemma filter_sublist {A} (f : A → bool) (l : list A) : sublist (List.filter f l) l.
Proof.
  induction l as [|x l IH]; simpl; [constructor|].
  destruct (f x); by constructor.
Qed.

Lemma unique_sources_nil : unique_sources [] = Ok [].
Proof. reflexivity. Qed.

End retrieval.

Lemma count_occ_filter_kept {A} (dec : ∀ x y : A, {x = y} + {x ≠ y})
    (f : A → bool) (l : list A) (x : A) :
  f x = true → count_occ dec (List.filter f l) x = count_occ dec l x.
Proof.
  intros Hx. induction l as [|y l IH]; [done|]. simpl.
  destruct (f y) eqn:Hy; simpl.
  - destruct (dec y x); by rewrite IH.
  - destruct (dec y x) as [->|_]; [congruence|done].
Qed.

(** X1. When the role has allowed documents and the search returns, the
    filter returns a sublist of what was retrieved (the ranking order is
    kept, nothing is added), in which every chunk has an allowed source and
    every retrieved chunk with an allowed source occurs as many times as it
    was retrieved. *)
Theorem X1_filter_keeps_ranking
    (retriever : string → io (list Document)) (input_dict : chain_input)
    (retrieved_docs : list Document) (t0 : list event) :
  get_allowed_documents (role input_dict) ≠ [] →
  retriever (question input_dict) = (Ok retrieved_docs, t0) →
  ∃ docs,
    _get_filtered_docs retriever input_dict = (Ok docs, t0)
    ∧ sublist docs retrieved_docs
    ∧ (∀ doc, doc ∈ docs →
         ∃ s, metadata doc !! "source" = Some (MStr s)
              ∧ s ∈ get_allowed_documents (role input_dict))
    ∧ ∀ doc s, metadata doc !! "source" = Some (MStr s) →
               s ∈ get_allowed_documents (role input_dict) →
               count_occ Document_eq_dec docs doc
               = count_occ Document_eq_dec retrieved_docs doc.
Proof.
  intros Hallowed Hsearch.
  pose proof (get_filtered_docs_elem retriever input_dict) as Hkept.
  rewrite get_filtered_docs_eq, Hsearch in Hkept |- *.
  destruct (get_allowed_documents (role input_dict)) as [|a l] eqn:Ha; [done|].
  eexists. split_and!; [done|apply filter_sublist| |].
  - intros doc Hin. apply py_in_true. by eapply Hkept.
  - intros doc s Hsrc Hs. apply count_occ_filter_kept.
    apply py_in_true. eauto.
Qed.

Lemma X1_witness :
  ∃ docs,
    _get_filtered_docs (as_retriever samples.store 10) samples.hr_query
      = (Ok docs, [EvSearch "How many leave days?" 10])
    ∧ sublist docs
        [samples.finance_summary; samples.hr_row; samples.orphan;
         samples.handbook; samples.hr_row]
    ∧ (∀ doc, doc ∈ docs →
         ∃ s, metadata doc !! "source" = Some (MStr s)
              ∧ s ∈ get_allowed_documents "hr_team")
    ∧ ∀ doc s,
        metadata doc !! "source" = Some (MStr s) →
        s ∈ get_allowed_documents "hr_team" →
        count_occ Document_eq_dec docs doc
        = count_occ Document_eq_dec
            [samples.finance_summary; samples.hr_row; samples.orphan;
             samples.handbook; samples.hr_row] doc.
Proof.
  apply (X1_filter_keeps_ranking (as_retriever samples.store 10) samples.hr_query).
  - vm_compute; discriminate.
  - vm_compute; reflexivity.
Defined.

(** X2. When the similarity search raises, the chain stops there: the chat
    model is not called, and the [try] block of [query_rag] answers with the
    error dictionary, whose message ends with the text of the exception and
    whose sources are empty. *)
Theorem X2_search_failure_reported
    (vs : vector_store) (k : nat) (llm : chat_model) (parser : output_parser)
    (input_dict : chain_input) (e : exn) :
  get_allowed_documents (role input_dict) ≠ [] →
  similarity_search vs (question input_dict) k = Raise e →
  lcel_chain (as_retriever vs k) llm parser input_dict
    = (Raise e, [EvSearch (question input_dict) k])
  ∧ invoke_chain (lcel_chain (as_retriever vs k) llm parser) input_dict
    = (Ok (response
             ("An error occurred while processing your request: " +:+ exn_str e) []),
       [EvSearch (question input_dict) k]).
Proof.
  intros Hallowed Hsearch.
  assert (Hchain : lcel_chain (as_retriever vs k) llm parser input_dict
                   = (Raise e, [EvSearch (question input_dict) k])).
  { unfold lcel_chain, mbind, io_mbind, io_bind.
    rewrite get_filtered_docs_eq.
    destruct (get_allowed_documents (role input_dict)); [done|].
    unfold as_retriever, call. by rewrite Hsearch. }
  split; [done|]. by apply invoke_chain_raise.
Qed.

Lemma X2_witness :
  lcel_chain (as_retriever more_samples.failing_store 10) samples.model
             (λ message, Ok message) samples.hr_query
    = (Raise (Exn OtherException "index corrupted"),
       [EvSearch "How many leave days?" 10])
  ∧ invoke_chain (lcel_chain (as_retriever more_samples.failing_store 10)
                             samples.model (λ message, Ok message))
                 samples.hr_query
    = (Ok (response
             "An error occurred while processing your request: index corrupted" []),
       [EvSearch "How many leave days?" 10]).
Proof.
  apply (X2_search_failure_reported more_samples.failing_store 10 samples.model
           (λ message, Ok message) samples.hr_query
           (Exn OtherException "index corrupted")).
  - vm_compute; discriminate.
  - reflexivity.
Defined.

(** X3. When the chat model raises, the [try] block answers with the error
    dictionary: the search and the call of the model are all that was done,
    and the sources of the dictionary are empty although chunks had been
    retrieved. *)
Theorem X3_generation_failure_reported
    (retriever : string → io (list Document)) (llm : chat_model)
    (parser : output_parser) (input_dict : chain_input)
    (docs : list Document) (t0 : list event) (context : string) (e : exn) :
  _get_filtered_docs retriever input_dict = (Ok docs, t0) →
  format_docs_for_context docs = Ok context →
  invoke llm (prompt_format context (question input_dict)) = Raise e →
  invoke_chain (lcel_chain retriever llm parser) input_dict
  = (Ok (response
           ("An error occurred while processing your request: " +:+ exn_str e) []),
     t0 ++ [EvGenerate (prompt_format context (question input_dict))]).
Proof.
  intros Hrun Hctx Hllm. apply invoke_chain_raise.
  destruct (unique_sources_sorted_set docs
              (filtered_sources_are_strings _ _ _ _ Hrun)) as (srcs & Hsrc & _).
  unfold lcel_chain, mbind, io_mbind, io_bind, mret, io_mret, io_ret, lift, call.
  rewrite Hrun. simpl. rewrite Hctx, Hsrc. simpl. rewrite Hllm. simpl.
  by rewrite !app_nil_r.
Qed.

Lemma X3_witness :
  invoke_chain (lcel_chain (as_retriever samples.store 10) more_samples.failing_model
                           (λ message, Ok message))
               samples.hr_query
  = (Ok (response "An error occurred while processing your request: rate limit" []),
     [EvSearch "How many leave days?" 10]
     ++ [EvGenerate
           (prompt_format
              (composer_spec.context
                 [ {| composer_spec.text := "name: Ann, dept: HR";
                      composer_spec.source := "resources/data/hr/hr_data.csv";
                      composer_spec.position := Some (MInt 3) |};
                   {| composer_spec.text := "Leave policy: 20 days";
                      composer_spec.source := "resources/data/general/employee_handbook.md";
                      composer_spec.position := None |};
                   {| composer_spec.text := "name: Ann, dept: HR";
                      composer_spec.source := "resources/data/hr/hr_data.csv";
                      composer_spec.position := Some (MInt 3) |} ])
              "How many leave days?")]).
Proof.
  apply (X3_generation_failure_reported (as_retriever samples.store 10)
           more_samples.failing_model (λ message, Ok message) samples.hr_query
           [samples.hr_row; samples.handbook; samples.hr_row]
           [EvSearch "How many leave days?" 10]
           _ (Exn OtherException "rate limit")).
  - vm_compute; reflexivity.
  - vm_compute; reflexivity.
  - reflexivity.
Defined.

(** X4. For a role without allowed documents the chain does not search, and
    still calls the chat model, once, with the prompt built from the fixed
    no-evidence sentence; the dictionary it returns has the model's answer
    and no sources. *)
Theorem X4_no_evidence_run
    (vs : vector_store) (k : nat) (llm : chat_model) (parser : output_parser)
    (input_dict : chain_input) (message answer : string) :
  let text := prompt_format "No documents found or provided for context."
                            (question input_dict) in
  get_allowed_documents (role input_dict) = [] →
  invoke llm text = Ok message →
  parser message = Ok answer →
  lcel_chain (as_retriever vs k) llm parser input_dict
  = (Ok (response answer []), [EvGenerate text]).
Proof.
  intros text Hallowed Hllm Hparse.
  assert (Hrun : _get_filtered_docs (as_retriever vs k) input_dict = (Ok [], []))
    by (by rewrite get_filtered_docs_eq, Hallowed).
  destruct (lcel_chain_returns (as_retriever vs k) llm parser input_dict [] [] Hrun)
    as (context & sources & [= <-] & [= <-] & Hchain).
  by apply (Hchain message answer).
Qed.

Lemma X4_witness :
  lcel_chain (as_retriever samples.store 10) samples.model (λ message, Ok message)
             samples.stranger_query
  = (Ok (response "Source: resources/data/finance/financial_summary.md" []),
     [EvGenerate (prompt_format "No documents found or provided for context."
                                "How many leave days?")]).
Proof.
  apply (X4_no_evidence_run samples.store 10 samples.model (λ message, Ok message)
           samples.stranger_query
           "Source: resources/data/finance/financial_summary.md").
  - vm_compute; reflexivity.
  - reflexivity.
  - reflexivity.
Defined.

(** ** [query_rag] and the endpoint, as written *)

(** X5. [query_rag] calls neither the index search nor the chat model: its
    only external calls are the load of the embedding model, the load of the
    index and the construction of the chat model; and a dictionary it returns
    is one of its error dictionaries, with empty sources and no [error]
    key. *)
Theorem X5_query_rag_never_generates
    (w : rag_pipeline.world) (user_query user_role : string) :
  (∀ ev, ev ∈ trace (query_rag w user_query user_role) →
         ev = EvEmbeddings rag_pipeline.EMBEDDING_MODEL_NAME
         ∨ ev = EvLoadIndex rag_pipeline.VECTOR_STORE_PATH
         ∨ ev = EvNewChatModel LLM_MODEL_NAME)
  ∧ (∀ result, outcome (query_rag w user_query user_role) = Ok result →
               ∃ msg, result = response msg []
                      ∧ result !! "sources" = Some (PList [])
                      ∧ result !! "error" = None).
Proof.
  destruct (query_rag_cases w user_query user_role)
    as [(_ & msg & Hrun)|[(_ & _ & msg & Hrun)|[(_ & _ & e & t & _ & Ht & Hrun)
        |(_ & _ & e & Hrun)]]];
    rewrite Hrun; simpl; split;
    try (intros result [= <-]; eexists; by split_and!); try done;
    intros ev Hev; try apply Ht in Hev;
    rewrite ?elem_of_cons, ?elem_of_nil in Hev; tauto.
Qed.

Lemma X5_witness :
  (EvNewChatModel LLM_MODEL_NAME
   = EvEmbeddings rag_pipeline.EMBEDDING_MODEL_NAME
   ∨ EvNewChatModel LLM_MODEL_NAME = EvLoadIndex rag_pipeline.VECTOR_STORE_PATH
   ∨ EvNewChatModel LLM_MODEL_NAME = EvNewChatModel LLM_MODEL_NAME)
  ∧ ∃ msg,
      response "Error loading vector store or embeddings: could not read index.faiss" []
      = response msg []
      ∧ response "Error loading vector store or embeddings: could not read index.faiss" []
          !! "sources" = Some (PList [])
      ∧ response "Error loading vector store or embeddings: could not read index.faiss" []
          !! "error" = None.
Proof.
  split.
  - apply (proj1 (X5_query_rag_never_generates samples.ready
                    "How many leave days?" "hr_team")).
    by_compute.
  - apply (proj2 (X5_query_rag_never_generates samples.broken_index
                    "How many leave days?" "hr_team")).
    vm_compute; reflexivity.
Defined.

(** X6. Once the credential is set and the index is loaded, [query_rag]
    raises: the exception of the [ChatOpenAI] constructor when that one
    fails (it is outside every [try]), and otherwise the [NameError] of the
    unbound name on line 157. *)
Theorem X6_query_rag_raises_once_loaded
    (w : rag_pipeline.world) (user_query user_role : string)
    (u : unit) (vs : vector_store) :
  truthy (getenv w "OPENAI_API_KEY") = true →
  rag_pipeline.path_exists w rag_pipeline.VECTOR_STORE_PATH = true →
  rag_pipeline.HuggingFaceEmbeddings w rag_pipeline.EMBEDDING_MODEL_NAME = Ok u →
  FAISS_load_local w rag_pipeline.VECTOR_STORE_PATH = Ok vs →
  outcome (query_rag w user_query user_role)
  = Raise match ChatOpenAI w LLM_MODEL_NAME
                  (default "" (getenv w "OPENAI_API_KEY"))
                  (getenv w "OPENAI_API_BASE") with
          | Raise e => e
          | Ok _ => Exn NameError "name 'StringOutputParser' is not defined"
          end.
Proof.
  unfold query_rag. intros -> -> -> ->. simpl.
  unfold mbind, io_mbind, io_bind, call.
  by destruct (ChatOpenAI w _ _ _).
Qed.

Lemma X6_witness :
  outcome (query_rag samples.ready "How many leave days?" "hr_team")
  = Raise (Exn NameError "name 'StringOutputParser' is not defined")
  ∧ outcome (query_rag more_samples.bad_model_world "How many leave days?" "hr_team")
    = Raise (Exn ValidationError "invalid api base").
Proof.
  split.
  - apply (X6_query_rag_raises_once_loaded samples.ready _ _ () samples.store);
      reflexivity.
  - apply (X6_query_rag_raises_once_loaded more_samples.bad_model_world _ _ ()
             samples.store); reflexivity.
Defined.

(** X7. What the endpoint replies. Every [HTTPException] it raises has
    status 500 and a text as detail; a body is returned only when the
    credential is set, the index path exists and loading the embedding model
    or the index raised, and then the body has the loading error as answer,
    no sources and no error. The endpoint makes no call beyond those of
    [query_rag]. *)
Theorem X7_endpoint_replies
    (w : rag_pipeline.world) (request : api_main.ChatQueryRequest) :
  let r := (api_main.handle_chat_query w request).1 in
  ((∃ detail, r = api_main.HTTPException 500 (PStr detail))
   ∨ (∃ e,
        truthy (getenv w "OPENAI_API_KEY") = true
        ∧ rag_pipeline.path_exists w rag_pipeline.VECTOR_STORE_PATH = true
        ∧ (rag_pipeline.HuggingFaceEmbeddings w rag_pipeline.EMBEDDING_MODEL_NAME = Raise e
           ∨ FAISS_load_local w rag_pipeline.VECTOR_STORE_PATH = Raise e)
        ∧ r = api_main.Returned
                {| api_main.answer :=
                     "Error loading vector store or embeddings: " +:+ exn_str e;
                   api_main.sources := [];
                   api_main.error := None |}))
  ∧ (api_main.handle_chat_query w request).2
    ⊆ trace (query_rag w (api_main.query request) (api_main.role request)).
Proof.
  intros r. unfold r, api_main.handle_chat_query.
  destruct (query_rag_cases w (api_main.query request) (api_main.role request))
    as [(Hkey & msg & Hrun)|[(Hkey & Hidx & msg & Hrun)
        |[(Hkey & Hidx & e & t & He & Ht & Hrun)|(Hkey & Hidx & e & Hrun)]]];
    rewrite Hkey; simpl; try rewrite Hidx; simpl.
  - split; [left; eauto|apply list_subseteq_nil].
  - split; [left; eauto|apply list_subseteq_nil].
  - rewrite Hrun, build_response_error_message. simpl. split; [|done].
    right. exists e. by split_and!.
  - rewrite Hrun. simpl. split; [|done]. left. apply handle_raised_500.
Qed.

(** X8. The endpoint's construction of the response accepts every result
    of the chain: answer and sources pass the validation unchanged, the
    body has no error, and its sources are allowed documents of the role. *)
Theorem X8_chain_result_becomes_body
    (retriever : string → io (list Document)) (llm : chat_model)
    (parser : output_parser) (input_dict : chain_input)
    (result : gmap string pyval) (t : list event) :
  lcel_chain retriever llm parser input_dict = (Ok result, t) →
  ∃ answer srcs,
    result = response answer (MStr <$> srcs)
    ∧ api_main.build_response result
      = inl {| api_main.answer := answer;
               api_main.sources := srcs;
               api_main.error := None |}
    ∧ srcs ⊆ get_allowed_documents (role input_dict).
Proof.
  intros Hrun.
  apply lcel_chain_returns_inv in Hrun
    as (docs & t0 & context & sources & message & answer
        & Hdocs & _ & Hsources & _ & _ & -> & _).
  destruct (unique_sources_sorted_set docs
              (filtered_sources_are_strings _ _ _ _ Hdocs))
    as (srcs & Heq & _ & _ & Hmem).
  rewrite Hsources in Heq. injection Heq as ->.
  exists answer, srcs. split_and!; [done| |].
  - unfold api_main.build_response.
    rewrite response_error, response_answer, response_sources.
    cbn [api_main.truthy_val default api_main.validate_answer].
    unfold id. by rewrite validate_sources_strings.
  - intros s Hs. apply Hmem in Hs as (doc & Hin & Hsrc).
    pose proof (get_filtered_docs_elem _ _ _ _ _ Hdocs Hin) as Hkept.
    apply py_in_true in Hkept as (s' & Hs' & Hallowed). congruence.
Qed.

Lemma X8_witness :
  ∃ answer srcs,
    response "Source: resources/data/finance/financial_summary.md"
             [MStr "resources/data/general/employee_handbook.md";
              MStr "resources/data/hr/hr_data.csv"]
    = response answer (MStr <$> srcs)
    ∧ api_main.build_response
        (response "Source: resources/data/finance/financial_summary.md"
                  [MStr "resources/data/general/employee_handbook.md";
                   MStr "resources/data/hr/hr_data.csv"])
      = inl {| api_main.answer := answer;
               api_main.sources := srcs;
               api_main.error := None |}
    ∧ srcs ⊆ get_allowed_documents "hr_team".
Proof.
  apply (X8_chain_result_becomes_body (as_retriever samples.store 10) samples.model
           (λ message, Ok message) samples.hr_query _
           (trace (lcel_chain (as_retriever samples.store 10) samples.model
                     (λ message, Ok message) samples.hr_query))).
  vm_compute; reflexivity.
Defined.

(** ** Formatting and sources, beyond filtered chunks *)

Section formatting.

Lemma format_doc_cases doc :
  (¬ unrenderable doc ∧ ∃ rest, format_doc doc = Ok ("Source: " +:+ rest))
  ∨ (unrenderable doc ∧ ∃ msg, format_doc doc = Raise (Exn TypeError msg)).
Proof.
  unfold unrenderable, format_doc.
  destruct (metadata doc !! "source") as [[s|z]|];
    destruct (metadata doc !! "row") as [row|]; simpl.
  all: try (left; split; [by intros (? & ? & ?)|by eexists]).
  right. split; [by eexists|by eexists].
Qed.

Lemma format_loop_cases docs formatted_docs :
  ((∀ doc, doc ∈ docs → ¬ unrenderable doc)
   ∧ ∃ blocks, format_loop docs formatted_docs = Ok (formatted_docs ++ blocks)
               ∧ length blocks = length docs
               ∧ ∀ b, b ∈ blocks → ∃ rest, b = "Source: " +:+ rest)
  ∨ ((∃ doc, doc ∈ docs ∧ unrenderable doc)
     ∧ ∃ msg, format_loop docs formatted_docs = Raise (Exn TypeError msg)).
Proof.
  revert formatted_docs.
  induction docs as [|doc docs IH]; intros formatted_docs; simpl.
  - left. split; [by intros ? ?%elem_of_nil|].
    exists []. rewrite app_nil_r. split_and!; [done..|]. by intros ? ?%elem_of_nil.
  - destruct (format_doc_cases doc) as [(Hok & rest & ->)|(Hbad & msg & ->)]; simpl.
    + destruct (IH (formatted_docs ++ ["Source: " +:+ rest]))
        as [(Hall & blocks & -> & Hlen & Hblocks)|((d & Hd & Hbad) & msg & ->)].
      * left. split.
        { intros d [->|Hd]%elem_of_cons; auto. }
        exists (("Source: " +:+ rest) :: blocks).
        rewrite <- app_assoc. split_and!; [done|by simpl; f_equal|].
        intros b [->|Hb]%elem_of_cons; eauto.
      * right. split; [|by eexists]. exists d. split; [by right|done].
    + right. split; [|by eexists]. exists doc. split; [left|done].
Qed.


End formatting.

Section rendering.

Lemma format_doc_rendered doc :
  ¬ unrenderable doc → format_doc doc = Ok (rendered_block doc).
Proof.
  unfold unrenderable, format_doc, rendered_block.
  destruct (metadata doc !! "source") as [[s|z]|];
    destruct (metadata doc !! "row") as [row|]; simpl; intros Hok.
  all: try by rewrite ?string_app_nil_r, ?string_app_assoc.
  destruct Hok. eauto.
Qed.

Lemma format_loop_rendered docs formatted_docs :
  (∀ doc, doc ∈ docs → ¬ unrenderable doc) →
  format_loop docs formatted_docs = Ok (formatted_docs ++ (rendered_block <$> docs)).
Proof.
  revert formatted_docs.
  induction docs as [|doc docs IH]; intros formatted_docs Hall; simpl.
  - by rewrite app_nil_r.
  - rewrite format_doc_rendered by (apply Hall; left). simpl.
    rewrite IH by (intros d Hd; apply Hall; by right).
    by rewrite <- app_assoc.
Qed.

End rendering.

(** X9. When the source of every document is a [str] or is missing, the
    context of a non-empty list is the blocks of the documents, in order and
    separated by blank lines, a document without source having the header
    "Source: Unknown Source"; when some document has a number as source and
    a row, [format_docs_for_context] raises a [TypeError]. *)
Theorem X9_unknown_source_and_numeric_source (docs : list Document) :
  ((∀ doc, doc ∈ docs →
      metadata doc !! "source" = None
      ∨ ∃ s, metadata doc !! "source" = Some (MStr s)) →
   docs ≠ [] →
   format_docs_for_context docs = Ok (join (nl +:+ nl) (rendered_block <$> docs)))
  ∧ ((∃ doc z, doc ∈ docs
               ∧ metadata doc !! "source" = Some (MInt z)
               ∧ is_Some (metadata doc !! "row")) →
     ∃ msg, format_docs_for_context docs = Raise (Exn TypeError msg)).
Proof.
  split.
  - intros Hsrc Hne. destruct docs as [|doc docs]; [done|].
    unfold format_docs_for_context.
    rewrite format_loop_rendered; [done|].
    intros d Hd (z & Hz & _).
    destruct (Hsrc d Hd) as [Hnone|[s Hs]]; congruence.
  - intros (doc & z & Hin & Hz & Hrow).
    destruct docs as [|d docs]; [by apply elem_of_nil in Hin|].
    unfold format_docs_for_context.
    destruct (format_loop_cases (d :: docs) [])
      as [(Hall & _)|(_ & msg & ->)]; simpl; [|by eexists].
    destruct (Hall doc Hin). exists z. by split.
Qed.

Lemma X9_witness :
  format_docs_for_context [samples.orphan; samples.hr_row]
  = Ok ("Source: Unknown Source" +:+ nl +:+ "no provenance" +:+ nl +:+ nl +:+
        "Source: resources/data/hr/hr_data.csv (Row: 3)" +:+ nl +:+
        "name: Ann, dept: HR")
  ∧ ∃ msg,
      format_docs_for_context [samples.handbook; more_samples.numbered]
      = Raise (Exn TypeError msg).
Proof.
  split.
  - apply (proj1 (X9_unknown_source_and_numeric_source
                    [samples.orphan; samples.hr_row])).
    + intros doc Hin. rewrite !elem_of_cons, elem_of_nil in Hin.
      destruct Hin as [->|[->|[]]]; [by left|right; by eexists].
    + discriminate.
  - apply (proj2 (X9_unknown_source_and_numeric_source
                    [samples.handbook; more_samples.numbered])).
    exists more_samples.numbered, 7%Z. split_and!; [by_compute|reflexivity|by eexists].
Defined.





(** ** Ingestion *)

Section ingestion_more.

Import ingest_data.

Variable w : ingest_data.world.

(** What one file contributes, and what reading it records. *)
Lemma load_file_cases file_path :
  ((ingest_data.path_exists w file_path = false ∨ supported file_path = false)
   ∧ load_file w file_path = (Ok [], []))
  ∨ (path_exists w file_path = true ∧ supported file_path = true
     ∧ ∃ r, load_file w file_path = (r, [EvLoadFile file_path])
            ∧ ∀ docs doc, r = Ok docs → doc ∈ docs →
                metadata doc !! "source" = Some (MStr file_path)).
Proof.
  unfold load_file, supported, mbind, io_mbind, io_bind, call, mret, io_mret, io_ret.
  destruct (path_exists w file_path); simpl; [|left; split; [by left|done]].
  destruct (endswith file_path ".csv"); simpl.
  - right. split_and!; [done..|].
    destruct (contains file_path "hr_data.csv");
      destruct (CSVLoader_load w file_path) as [raw|e]; simpl;
      eexists; (split; [reflexivity|]); intros docs doc [= <-] Hin.
    + by apply elem_of_lookup_imap in Hin as (i & r & -> & _).
    + apply list_elem_of_fmap in Hin as (r & -> & _). apply lookup_insert_eq.
  - destruct (endswith file_path ".md"); simpl; [|left; split; [by right|done]].
    right. split_and!; [done..|].
    destruct (TextLoader_load w file_path) as [raw|e]; simpl;
      eexists; (split; [reflexivity|]); intros docs doc [= <-] Hin.
    apply list_elem_of_fmap in Hin as (r & -> & _). apply lookup_insert_eq.
Qed.

(** One turn of the loop over the files. *)
Lemma load_all_cons file_path files all_docs_content :
  ∃ docs t,
    load_all w (file_path :: files) all_docs_content
    = ((load_all w files (all_docs_content ++ docs)).1,
       t ++ (load_all w files (all_docs_content ++ docs)).2)
    ∧ t = (load_file w file_path).2
    ∧ (docs = [] ∨ (load_file w file_path).1 = Ok docs).
Proof.
  simpl. unfold mbind, io_mbind, io_bind, try_except.
  destruct (load_file w file_path) as [[docs|e] t]; simpl.
  - exists docs, t. destruct (load_all w files (all_docs_content ++ docs)).
    split_and!; [done..|by right].
  - exists [], t. rewrite (app_nil_r t).
    destruct (load_all w files (all_docs_content ++ [])).
    split_and!; [done..|by left].
Qed.

(** Every collected document names the file it was read from. *)
Lemma load_all_sources files all_docs_content docs doc :
  outcome (load_all w files all_docs_content) = Ok docs →
  doc ∈ docs →
  doc ∈ all_docs_content
  ∨ ∃ file_path, file_path ∈ files
                 ∧ path_exists w file_path = true
                 ∧ metadata doc !! "source" = Some (MStr file_path).
Proof.
  revert all_docs_content.
  induction files as [|file_path files IH]; intros all_docs_content.
  - simpl. intros [= <-]. by left.
  - destruct (load_all_cons file_path files all_docs_content)
      as (docs' & t & -> & _ & Hdocs').
    unfold outcome. simpl. intros Hrun Hin.
    destruct (IH _ Hrun Hin) as [Hacc|(f & Hf & Hex & Hsrc)].
    + apply elem_of_app in Hacc as [Hacc|Hnew]; [by left|].
      right. exists file_path.
      destruct Hdocs' as [->|Hload]; [by apply elem_of_nil in Hnew|].
      destruct (load_file_cases file_path)
        as [(_ & Heq)|(Hex & _ & r & Heq & Hsrc)]; rewrite Heq in Hload.
      * injection Hload as <-. by apply elem_of_nil in Hnew.
      * simpl in Hload. split_and!; [left|done|by eapply Hsrc].
    + right. exists f. split_and!; [by right|done..].
Qed.

(** The reads of the loop: the files of the list that exist and are of a
    supported kind. *)
Lemma load_all_reads files all_docs_content ev :
  ev ∈ trace (load_all w files all_docs_content)
  ↔ ∃ file_path, ev = EvLoadFile file_path
                 ∧ file_path ∈ files
                 ∧ path_exists w file_path = true
                 ∧ supported file_path = true.
Proof.
  revert all_docs_content.
  induction files as [|file_path files IH]; intros all_docs_content.
  - simpl. split; [by intros ?%elem_of_nil|].
    by intros (? & _ & ?%elem_of_nil & _).
  - destruct (load_all_cons file_path files all_docs_content)
      as (docs' & t & -> & -> & _).
    unfold trace. simpl. rewrite elem_of_app.
    change ((load_all w files (all_docs_content ++ docs')).2)
      with (trace (load_all w files (all_docs_content ++ docs'))).
    rewrite IH.
    destruct (load_file_cases file_path)
      as [(Hskip & Heq)|(Hex & Hsup & r & Heq & _)]; rewrite Heq; simpl.
    + rewrite elem_of_nil. split.
      * intros [[]|(f & -> & Hf & Hex & Hsup)]. exists f. split_and!; [done|by right|done..].
      * intros (f & -> & [->|Hf]%elem_of_cons & Hex & Hsup).
        { destruct Hskip; congruence. }
        right. by exists f.
    + rewrite list_elem_of_singleton. split.
      * intros [->|(f & -> & Hf & Hex' & Hsup')].
        { exists file_path. split_and!; [done|left|done..]. }
        exists f. split_and!; [done|by right|done..].
      * intros (f & -> & [->|Hf]%elem_of_cons & Hex' & Hsup'); [by left|].
        right. by exists f.
Qed.

Lemma ALL_FILES_supported file_path :
  file_path ∈ ALL_FILES → supported file_path = true.
Proof.
  revert file_path. apply Forall_forall. by_compute.
Qed.

Lemma dirname_store : dirname VECTOR_STORE_PATH = "vector_store".
Proof. reflexivity. Qed.

(** [ingest_data], step by step. *)
Lemma ingest_data_eq :
  ingest_data w =
  match load_all w ALL_FILES [] with
  | (Raise e, t) => (Raise e, t)
  | (Ok [], t) => (Ok tt, t)
  | (Ok docs, t) =>
      match split_documents w docs with
      | Raise e => (Raise e, t ++ [EvSplit docs])
      | Ok chunks =>
          match HuggingFaceEmbeddings w EMBEDDING_MODEL_NAME with
          | Raise e => (Raise e, t ++ [EvSplit docs; EvEmbeddings EMBEDDING_MODEL_NAME])
          | Ok _ =>
              let built := [EvSplit docs; EvEmbeddings EMBEDDING_MODEL_NAME;
                            EvBuildIndex chunks] in
              match FAISS_from_documents w chunks with
              | Raise e => (Raise e, t ++ built)
              | Ok _ =>
                  if path_exists w "vector_store" then
                    (save_local w VECTOR_STORE_PATH,
                     t ++ built ++ [EvSaveIndex VECTOR_STORE_PATH])
                  else
                    match makedirs w "vector_store" with
                    | Raise e => (Raise e, t ++ built ++ [EvMakedirs "vector_store"])
                    | Ok _ =>
                        (save_local w VECTOR_STORE_PATH,
                         t ++ built ++ [EvMakedirs "vector_store";
                                        EvSaveIndex VECTOR_STORE_PATH])
                    end
              end
          end
      end
  end.
Proof.
  unfold ingest_data, mbind, io_mbind, io_bind, call, mret, io_mret, io_ret.
  rewrite dirname_store.
  destruct (load_all w ALL_FILES []) as [[[|doc docs]|e] t]; simpl; [|
    |done].
  { by rewrite app_nil_r. }
  destruct (split_documents w (doc :: docs)) as [chunks|e]; simpl; [|done].
  destruct (HuggingFaceEmbeddings w EMBEDDING_MODEL_NAME) as [u|e]; simpl; [|done].
  destruct (FAISS_from_documents w chunks) as [v|e]; simpl; [|done].
  destruct (path_exists w "vector_store"); simpl.
  - by destruct (save_local w VECTOR_STORE_PATH).
  - destruct (makedirs w "vector_store"); simpl; [|done].
    by destruct (save_local w VECTOR_STORE_PATH).
Qed.

End ingestion_more.

Section ingestion_runs.

Import ingest_data.

Variable w : ingest_data.world.

(** After the loop, no file is read any more. *)
Lemma ingest_data_trace :
  ∃ rest, trace (ingest_data w) = trace (load_all w ALL_FILES []) ++ rest
          ∧ ∀ file_path, EvLoadFile file_path ∉ rest.
Proof.
  rewrite ingest_data_eq.
  destruct (load_all w ALL_FILES []) as [[[|doc docs]|e] t]; unfold trace; simpl.
  1, 3: exists []; rewrite app_nil_r; split; [done|]; by intros ? ?%elem_of_nil.
  repeat case_match; simpl; eexists; (split; [reflexivity|]);
    intros file_path Hin; rewrite ?elem_of_cons, ?elem_of_nil in Hin;
    destruct_or?; done.
Qed.

Lemma load_all_only_reads files all_docs_content ev :
  ev ∈ trace (load_all w files all_docs_content) → ∃ file_path, ev = EvLoadFile file_path.
Proof. intros (f & -> & _)%load_all_reads. by exists f. Qed.

End ingestion_runs.

(** X12. Every document the ingestion loop collects carries, as its
    source, the path of a file of [ALL_FILES] that exists; the role filter
    therefore admits it for a role exactly when that file is among the
    allowed documents of the role. *)
Theorem X12_collected_documents_are_stamped
    (w : ingest_data.world) (docs : list Document) (doc : Document) :
  outcome (ingest_data.load_all w ALL_FILES []) = Ok docs →
  doc ∈ docs →
  ∃ file_path,
    file_path ∈ ALL_FILES
    ∧ ingest_data.path_exists w file_path = true
    ∧ metadata doc !! "source" = Some (MStr file_path)
    ∧ ∀ role, py_in (metadata doc !! "source") (get_allowed_documents role)
              = bool_decide (file_path ∈ get_allowed_documents role).
Proof.
  intros Hrun Hin.
  destruct (load_all_sources w ALL_FILES [] docs doc Hrun Hin)
    as [Hnil|(f & Hf & Hex & Hsrc)]; [by apply elem_of_nil in Hnil|].
  exists f. split_and!; [done..|]. intros role. by rewrite Hsrc.
Qed.

Lemma X12_witness :
  ∃ file_path,
    file_path ∈ ALL_FILES
    ∧ ingest_data.path_exists more_samples.small_disk file_path = true
    ∧ metadata (mkDocument "name: Bob"
                  {[ "source" := MStr more_samples.hr_path; "row" := MInt 2 ]})
        !! "source" = Some (MStr file_path)
    ∧ ∀ role,
        py_in (metadata (mkDocument "name: Bob"
                           {[ "source" := MStr more_samples.hr_path; "row" := MInt 2 ]})
                 !! "source")
              (get_allowed_documents role)
        = bool_decide (file_path ∈ get_allowed_documents role).
Proof.
  eapply (X12_collected_documents_are_stamped more_samples.small_disk).
  - vm_compute; reflexivity.
  - by_compute.
Defined.

(** X13. For the HR table, the rows the loader returns become documents
    in the same order and number, with the text of the row, and with a fresh
    metadata of two keys: the path of the file and the row number counted
    from one; whatever metadata the loader had set is dropped. *)
Theorem X13_hr_rows_numbered_from_one
    (w : ingest_data.world) (file_path : string) (raw_documents : list Document) :
  ingest_data.path_exists w file_path = true →
  endswith file_path ".csv" = true →
  contains file_path "hr_data.csv" = true →
  ingest_data.CSVLoader_load w file_path = Ok raw_documents →
  ∃ docs,
    ingest_data.load_file w file_path = (Ok docs, [EvLoadFile file_path])
    ∧ length docs = length raw_documents
    ∧ ∀ i raw, raw_documents !! i = Some raw →
        docs !! i
        = Some (mkDocument (page_content raw)
                  {[ "source" := MStr file_path; "row" := MInt (Z.of_nat i + 1) ]}).
Proof.
  intros Hex Hcsv Hhr Hload.
  unfold ingest_data.load_file, mbind, io_mbind, io_bind, call.
  rewrite Hex, Hcsv, Hhr, Hload. simpl. eexists. split_and!; [done| |].
  - by rewrite length_imap.
  - intros i raw Hraw. by rewrite list_lookup_imap, Hraw.
Qed.

Lemma X13_witness :
  ∃ docs,
    ingest_data.load_file more_samples.small_disk more_samples.hr_path
      = (Ok docs, [EvLoadFile more_samples.hr_path])
    ∧ length docs = length more_samples.raw_rows
    ∧ ∀ i raw, more_samples.raw_rows !! i = Some raw →
        docs !! i
        = Some (mkDocument (page_content raw)
                  {[ "source" := MStr more_samples.hr_path;
                     "row" := MInt (Z.of_nat i + 1) ]}).
Proof.
  apply (X13_hr_rows_numbered_from_one more_samples.small_disk more_samples.hr_path);
    reflexivity.
Defined.

(** X14. The files a run of [ingest_data] reads are exactly the files of
    [ALL_FILES] that exist: a missing file is never opened, and no listed
    file is passed over as being of an unsupported kind. *)
Theorem X14_reads_existing_listed_files
    (w : ingest_data.world) (file_path : string) :
  EvLoadFile file_path ∈ trace (ingest_data.ingest_data w)
  ↔ file_path ∈ ALL_FILES ∧ ingest_data.path_exists w file_path = true.
Proof.
  destruct (ingest_data_trace w) as (rest & -> & Hrest).
  rewrite elem_of_app, load_all_reads. split.
  - intros [(f & [= <-] & Hf & Hex & _)|Hin]; [done|]. by apply Hrest in Hin.
  - intros [Hf Hex]. left. exists file_path.
    split_and!; [done..|]. by apply ALL_FILES_supported.
Qed.

(** X15. An index is saved only after it was built: when a run saves,
    documents had been collected, they were split, and the index was built
    with success from exactly the chunks the splitter returned; the path it
    is saved at is [VECTOR_STORE_PATH]. *)
Theorem X15_saved_index_was_built (w : ingest_data.world) (path : string) :
  EvSaveIndex path ∈ trace (ingest_data.ingest_data w) →
  ∃ docs chunks,
    outcome (ingest_data.load_all w ALL_FILES []) = Ok docs
    ∧ docs ≠ []
    ∧ ingest_data.split_documents w docs = Ok chunks
    ∧ ingest_data.FAISS_from_documents w chunks = Ok ()
    ∧ EvBuildIndex chunks ∈ trace (ingest_data.ingest_data w)
    ∧ path = ingest_data.VECTOR_STORE_PATH.
Proof.
  rewrite ingest_data_eq.
  pose proof (load_all_only_reads w ALL_FILES []) as Hreads.
  destruct (ingest_data.load_all w ALL_FILES []) as [[[|doc docs]|e] t];
    unfold trace, outcome in *; simpl in *.
  1, 3: by intros (f & ?)%Hreads.
  destruct (ingest_data.split_documents w (doc :: docs)) as [chunks|e] eqn:Hsplit;
    simpl.
  2: { rewrite elem_of_app, list_elem_of_singleton.
       intros [(f & ?)%Hreads|?]; done. }
  destruct (ingest_data.HuggingFaceEmbeddings w _) as [u|e]; simpl.
  2: { rewrite elem_of_app, !elem_of_cons, elem_of_nil.
       intros [(f & ?)%Hreads|?]; [done|]. destruct_or?; done. }
  destruct (ingest_data.FAISS_from_documents w chunks) as [[]|e] eqn:Hbuild; simpl.
  2: { rewrite elem_of_app, !elem_of_cons, elem_of_nil.
       intros [(f & ?)%Hreads|?]; [done|]. destruct_or?; done. }
  assert (Hpath : ∀ l : list event,
             EvSaveIndex path
             ∈ t ++ [EvSplit (doc :: docs);
                     EvEmbeddings ingest_data.EMBEDDING_MODEL_NAME;
                     EvBuildIndex chunks] ++ l →
             (∀ ev, ev ∈ l → ev = EvMakedirs "vector_store"
                              ∨ ev = EvSaveIndex ingest_data.VECTOR_STORE_PATH) →
             path = ingest_data.VECTOR_STORE_PATH).
  { intros l Hin Hl. rewrite !elem_of_app, !elem_of_cons, elem_of_nil in Hin.
    destruct Hin as [(f & ?)%Hreads|[?|Hin]]; [done| |].
    - destruct_or?; done.
    - destruct (Hl _ Hin) as [?|[= ->]]; done. }
  assert (Hbuilt : ∀ l : list event,
             EvBuildIndex chunks
             ∈ t ++ [EvSplit (doc :: docs);
                     EvEmbeddings ingest_data.EMBEDDING_MODEL_NAME;
                     EvBuildIndex chunks] ++ l).
  { intros l. rewrite !elem_of_app, !elem_of_cons. auto 10. }
  destruct (ingest_data.path_exists w "vector_store"); simpl.
  - intros Hin. exists (doc :: docs), chunks. split_and!; try done.
    + apply (Hbuilt [EvSaveIndex ingest_data.VECTOR_STORE_PATH]).
    + apply (Hpath [EvSaveIndex ingest_data.VECTOR_STORE_PATH] Hin).
      intros ev ->%list_elem_of_singleton. by right.
  - destruct (ingest_data.makedirs w "vector_store"); simpl.
    + intros Hin. exists (doc :: docs), chunks. split_and!; try done.
      * apply (Hbuilt [EvMakedirs "vector_store";
                       EvSaveIndex ingest_data.VECTOR_STORE_PATH]).
      * apply (Hpath [EvMakedirs "vector_store";
                      EvSaveIndex ingest_data.VECTOR_STORE_PATH] Hin).
        intros ev Hev. rewrite !elem_of_cons, elem_of_nil in Hev. tauto.
    + intros Hin. exfalso.
      rewrite !elem_of_app, !elem_of_cons, elem_of_nil in Hin.
      destruct Hin as [(f & ?)%Hreads|[?|?]]; [done|..]; destruct_or?; done.
Qed.

Lemma X15_witness :
  ∃ docs chunks,
    outcome (ingest_data.load_all more_samples.small_disk ALL_FILES []) = Ok docs
    ∧ docs ≠ []
    ∧ ingest_data.split_documents more_samples.small_disk docs = Ok chunks
    ∧ ingest_data.FAISS_from_documents more_samples.small_disk chunks = Ok ()
    ∧ EvBuildIndex chunks ∈ trace (ingest_data.ingest_data more_samples.small_disk)
    ∧ "vector_store/faiss_index" = ingest_data.VECTOR_STORE_PATH.
Proof.
  apply (X15_saved_index_was_built more_samples.small_disk "vector_store/faiss_index").
  by_compute.
Defined.

(** X16. When documents were collected and the splitter, the embedding
    model or the index build raises, [ingest_data] raises that exception
    (nothing catches it) and saves no index. *)
Theorem X16_build_failure_propagates
    (w : ingest_data.world) (docs : list Document) (e : exn) :
  outcome (ingest_data.load_all w ALL_FILES []) = Ok docs →
  docs ≠ [] →
  (ingest_data.split_documents w docs = Raise e
   ∨ ∃ chunks,
       ingest_data.split_documents w docs = Ok chunks
       ∧ (ingest_data.HuggingFaceEmbeddings w ingest_data.EMBEDDING_MODEL_NAME = Raise e
          ∨ (∃ u, ingest_data.HuggingFaceEmbeddings w ingest_data.EMBEDDING_MODEL_NAME
                  = Ok u)
            ∧ ingest_data.FAISS_from_documents w chunks = Raise e)) →
  outcome (ingest_data.ingest_data w) = Raise e
  ∧ ∀ path, EvSaveIndex path ∉ trace (ingest_data.ingest_data w).
Proof.
  intros Hdocs Hne Hfail. rewrite ingest_data_eq.
  pose proof (load_all_only_reads w ALL_FILES []) as Hreads.
  destruct (ingest_data.load_all w ALL_FILES []) as [r t].
  unfold outcome, trace in *. simpl in *. subst r.
  destruct docs as [|doc docs]; [done|].
  assert (Hrest : ∀ path (l : list event),
             (∀ ev, ev ∈ l → ∀ p, ev ≠ EvSaveIndex p) → EvSaveIndex path ∉ t ++ l).
  { intros path l Hl [(f & ?)%Hreads|Hin]%elem_of_app; [done|]. by eapply Hl. }
  destruct Hfail as [->|(chunks & -> & [->|[[u ->] ->]])]; simpl;
    (split; [done|]); intros path; apply Hrest; intros ev Hev p;
    rewrite !elem_of_cons, elem_of_nil in Hev; destruct_or?; by subst.
Qed.

Lemma X16_witness :
  outcome (ingest_data.ingest_data more_samples.offline_disk)
  = Raise (Exn OtherException "embedding provider unreachable")
  ∧ ∀ path, EvSaveIndex path ∉ trace (ingest_data.ingest_data more_samples.offline_disk).
Proof.
  eapply (X16_build_failure_propagates more_samples.offline_disk).
  - vm_compute; reflexivity.
  - discriminate.
  - right. eexists. split; [reflexivity|]. right. split; [by eexists|reflexivity].
Defined.

Lemma X14_witness :
  EvLoadFile more_samples.hr_path
    ∈ trace (ingest_data.ingest_data more_samples.small_disk)
  ∧ EvLoadFile "resources/data/finance/financial_summary.md"
    ∉ trace (ingest_data.ingest_data more_samples.small_disk).
Proof.
  split.
  - apply (proj2 (X14_reads_existing_listed_files more_samples.small_disk
                    more_samples.hr_path)).
    split; [by_compute|reflexivity].
  - intros Hread.
    apply (proj1 (X14_reads_existing_listed_files more_samples.small_disk
                    "resources/data/finance/financial_summary.md")) in Hread.
    destruct Hread as [_ Hex]. vm_compute in Hex. discriminate.
Defined.

(** ** Ingestion and retrieval together, and roles compared *)

Section roles.

Lemma filter_all {A} (f : A → bool) (l : list A) :
  (∀ x, x ∈ l → f x = true) → List.filter f l = l.
Proof.
  induction l as [|x l IH]; [done|]. intros Hall. simpl.
  rewrite (Hall x); [|left]. f_equal. apply IH. intros y Hy. apply Hall. by right.
Qed.

Lemma filter_sublist_impl {A} (f g : A → bool) (l : list A) :
  (∀ x, f x = true → g x = true) → sublist (List.filter f l) (List.filter g l).
Proof.
  intros Himpl. induction l as [|x l IH]; simpl; [constructor|].
  destruct (f x) eqn:Hf.
  - rewrite (Himpl x Hf). by constructor.
  - destruct (g x); [by constructor|done].
Qed.

Lemma py_in_mono v (allowed allowed' : list string) :
  allowed ⊆ allowed' → py_in v allowed = true → py_in v allowed' = true.
Proof.
  intros Hsub. rewrite !py_in_true. intros (s & -> & Hs). exists s. auto.
Qed.

End roles.

(** X17. Executives lose nothing to the filter: when every retrieved chunk
    has the metadata of a document the ingestion loop collected, the filter
    for "c_level_executives" returns the retrieved list as it is. *)
Theorem X17_executives_keep_every_chunk
    (w : ingest_data.world) (docs : list Document)
    (vs : vector_store) (k : nat) (user_query : string)
    (retrieved_docs : list Document) :
  outcome (ingest_data.load_all w ALL_FILES []) = Ok docs →
  similarity_search vs user_query k = Ok retrieved_docs →
  (∀ chunk, chunk ∈ retrieved_docs →
            ∃ doc, doc ∈ docs ∧ metadata chunk = metadata doc) →
  _get_filtered_docs (as_retriever vs k)
    {| question := user_query; rag_pipeline.role := "c_level_executives" |}
  = (Ok retrieved_docs, [EvSearch user_query k]).
Proof.
  intros Hdocs Hsearch Hmeta. rewrite get_filtered_docs_eq.
  assert (Hall : get_allowed_documents "c_level_executives" = ALL_FILES)
    by (vm_compute; reflexivity).
  cbn [rag_pipeline.role question]. rewrite Hall.
  unfold as_retriever, call. rewrite Hsearch.
  change ALL_FILES with ("resources/data/engineering/engineering_master_doc.md"
                         :: tail ALL_FILES) at 1.
  cbv beta iota. f_equal. f_equal.
  change ("resources/data/engineering/engineering_master_doc.md" :: tail ALL_FILES)
    with ALL_FILES.
  apply filter_all. intros chunk Hchunk.
  destruct (Hmeta chunk Hchunk) as (doc & Hdoc & ->).
  destruct (load_all_sources w ALL_FILES [] docs doc Hdocs Hdoc)
    as [Hnil|(f & Hf & _ & ->)]; [by apply elem_of_nil in Hnil|].
  by apply bool_decide_eq_true.
Qed.

Lemma X17_witness :
  _get_filtered_docs
    (as_retriever
       {| similarity_search := λ _ _,
            Ok [mkDocument "Leave policy"
                  {[ "source" := MStr more_samples.handbook_path ]};
                mkDocument "Bob"
                  {[ "source" := MStr more_samples.hr_path; "row" := MInt 2 ]}] |}
       10)
    {| question := "Who is Bob?"; rag_pipeline.role := "c_level_executives" |}
  = (Ok [mkDocument "Leave policy"
           {[ "source" := MStr more_samples.handbook_path ]};
         mkDocument "Bob"
           {[ "source" := MStr more_samples.hr_path; "row" := MInt 2 ]}],
     [EvSearch "Who is Bob?" 10]).
Proof.
  eapply (X17_executives_keep_every_chunk more_samples.small_disk).
  - vm_compute; reflexivity.
  - reflexivity.
  - intros chunk Hchunk. rewrite !elem_of_cons, elem_of_nil in Hchunk.
    destruct Hchunk as [->|[->|[]]].
    + exists (mkDocument "Leave policy: 20 days"
                {[ "source" := MStr more_samples.handbook_path ]}).
      split; [by_compute|vm_compute; reflexivity].
    + exists (mkDocument "name: Bob"
                {[ "source" := MStr more_samples.hr_path; "row" := MInt 2 ]}).
      split; [by_compute|vm_compute; reflexivity].
Defined.

(** X18. A role with more documents sees at least as much: when the
    allowed documents of one role are among those of another and the search
    returns, the chunks kept for the first role form a sublist of the chunks
    kept for the second, for the same question. *)
Theorem X18_more_documents_more_chunks
    (retriever : string → io (list Document)) (user_query role1 role2 : string)
    (retrieved_docs : list Document) (t0 : list event) :
  get_allowed_documents role1 ⊆ get_allowed_documents role2 →
  retriever user_query = (Ok retrieved_docs, t0) →
  ∃ docs1 docs2,
    outcome (_get_filtered_docs retriever
               {| question := user_query; rag_pipeline.role := role1 |}) = Ok docs1
    ∧ outcome (_get_filtered_docs retriever
                 {| question := user_query; rag_pipeline.role := role2 |}) = Ok docs2
    ∧ sublist docs1 docs2.
Proof.
  intros Hsub Hsearch. rewrite !get_filtered_docs_eq.
  cbn [rag_pipeline.role question]. rewrite Hsearch.
  destruct (get_allowed_documents role1) as [|a1 l1] eqn:H1;
    destruct (get_allowed_documents role2) as [|a2 l2] eqn:H2; unfold outcome; simpl.
  - exists [], []. by split_and!.
  - eexists [], _. split_and!; [done..|]. apply sublist_nil_l.
  - exfalso. specialize (Hsub a1). rewrite elem_of_nil in Hsub. apply Hsub. left.
  - eexists _, _. split_and!; [done..|].
    apply filter_sublist_impl. intros doc. by apply py_in_mono.
Qed.

Lemma X18_witness :
  ∃ docs1 docs2,
    outcome (_get_filtered_docs (as_retriever samples.store 10)
               {| question := "How many leave days?";
                  rag_pipeline.role := "employee_level" |}) = Ok docs1
    ∧ outcome (_get_filtered_docs (as_retriever samples.store 10)
                 {| question := "How many leave days?";
                    rag_pipeline.role := "hr_team" |}) = Ok docs2
    ∧ sublist docs1 docs2.
Proof.
  eapply (X18_more_documents_more_chunks (as_retriever samples.store 10)).
  - apply list_subseteq_Forall. by_compute.
  - reflexivity.
Defined.
